(** * Abstract: document text extraction and annotation generation

    A shallow embedding of [src/extract.py] and [src/main.py].

    Python [str] values are sequences of Unicode code points, file contents
    are sequences of bytes, the file system is a finite map from path strings
    to contents, and every function that can raise is written in a small
    state-and-exception monad over the world it touches.  Libraries outside
    the repository (pdfplumber, python-docx, transformers, antiword,
    LibreOffice, the clock, the JSON writer) and what the operating system
    alone knows (directories, whether a path can be opened for writing) are
    fields of an environment record, and every theorem holds for all their
    behaviours unless it says otherwise.

    Console output.  [print] changes neither a return value nor the file
    system, but it can raise.  The modules [Extract] and [Main] give the
    functions as they run when every line is printed, with the [print]
    statements left out.  The modules [ExtractIO] and [MainIO] give the
    same functions with every [print] statement, over a console that may
    refuse a line; what is said about exceptions leaving a function is said
    of these.  The two agree on a
    console that prints every line ([printing_changes_nothing]).

    Conventions.  Exceptions are those under [Exception]; interrupts are
    not modelled.  Paths are POSIX: [pathlib] name and suffix rules, a
    [glob] that distinguishes letter case, and files looked up under the
    path string as written.  [max_words] is a Python integer; the product
    [max_words * 0.3] is computed in binary64 with the kernel's
    specification of IEEE 754 arithmetic. *)

From Stdlib Require Import ZArith NArith QArith String Bool Lia.
From Stdlib.Strings Require Import Byte.
From Stdlib Require Import SpecFloat.
From stdpp Require Import gmap list.

Local Open Scope N_scope.

(** ** Python strings *)

(** A character is a code point; a [str] is a list of them. *)
Definition char : Type := N.
Definition pystr : Type := list char.
Definition bytes : Type := list byte.

Definition is_cont (n : N) : bool := (128 <=? n) && (n <? 192).

(** The [utf-8] codec of CPython: [ignore = false] is [errors='strict']
    ([None] stands for [UnicodeDecodeError]), [ignore = true] is
    [errors='ignore'], which drops each malformed range and goes on. *)
Fixpoint utf8_decode (ignore : bool) (bs : bytes) : option pystr :=
  match bs with
  | [] => Some []
  | b1 :: r1 =>
    let n1 := Byte.to_N b1 in
    if n1 <? 128 then cons n1 <$> utf8_decode ignore r1
    else if (n1 <? 194) || (245 <=? n1) then
      if ignore then utf8_decode ignore r1 else None
    else if n1 <? 224 then
      match r1 with
      | [] => if ignore then Some [] else None
      | b2 :: r2 =>
        let n2 := Byte.to_N b2 in
        if is_cont n2
        then cons ((n1 - 192) * 64 + (n2 - 128)) <$> utf8_decode ignore r2
        else if ignore then utf8_decode ignore r1 else None
      end
    else if n1 <? 240 then
      match r1 with
      | [] => if ignore then Some [] else None
      | b2 :: r2 =>
        let n2 := Byte.to_N b2 in
        if negb (is_cont n2) || ((n1 =? 224) && (n2 <? 160))
           || ((n1 =? 237) && (160 <=? n2))
        then if ignore then utf8_decode ignore r1 else None
        else
          match r2 with
          | [] => if ignore then Some [] else None
          | b3 :: r3 =>
            let n3 := Byte.to_N b3 in
            if is_cont n3
            then cons ((n1 - 224) * 4096 + (n2 - 128) * 64 + (n3 - 128))
                   <$> utf8_decode ignore r3
            else if ignore then utf8_decode ignore r2 else None
          end
      end
    else
      match r1 with
      | [] => if ignore then Some [] else None
      | b2 :: r2 =>
        let n2 := Byte.to_N b2 in
        if negb (is_cont n2) || ((n1 =? 240) && (n2 <? 144))
           || ((n1 =? 244) && (144 <=? n2))
        then if ignore then utf8_decode ignore r1 else None
        else
          match r2 with
          | [] => if ignore then Some [] else None
          | b3 :: r3 =>
            let n3 := Byte.to_N b3 in
            if negb (is_cont n3)
            then if ignore then utf8_decode ignore r2 else None
            else
              match r3 with
              | [] => if ignore then Some [] else None
              | b4 :: r4 =>
                let n4 := Byte.to_N b4 in
                if is_cont n4
                then cons ((n1 - 240) * 262144 + (n2 - 128) * 4096
                           + (n3 - 128) * 64 + (n4 - 128))
                       <$> utf8_decode ignore r4
                else if ignore then utf8_decode ignore r3 else None
              end
          end
      end
  end.

(** String literals of the source, written as UTF-8 text and decoded to
    code points. *)
Definition lit (s : string) : pystr :=
  default [] (utf8_decode false (list_byte_of_string s)).
Arguments lit : simpl never.

(** [str.isspace] for one character: the white space of [str.split()] and
    [str.strip()] without arguments. *)
Definition is_space (c : char) : bool :=
  ((9 <=? c) && (c <=? 13)) || ((28 <=? c) && (c <=? 32))
  || (c =? 133) || (c =? 160) || (c =? 5760)
  || ((8192 <=? c) && (c <=? 8202))
  || (c =? 8232) || (c =? 8233) || (c =? 8239) || (c =? 8287) || (c =? 12288).

(** [s.split()]: the maximal runs of characters that are not white space. *)
Fixpoint split (s : pystr) : list pystr :=
  match s with
  | [] => []
  | c :: s' =>
    if is_space c then split s'
    else
      match s' with
      | [] => [[c]]
      | d :: _ =>
        if is_space d then [c] :: split s'
        else
          match split s' with
          | w :: ws => (c :: w) :: ws
          | [] => [[c]]
          end
      end
  end.

(** [s.split(sep)] for a one-character separator. *)
Fixpoint split_on (sep : char) (s : pystr) : list pystr :=
  match s with
  | [] => [[]]
  | c :: s' =>
    if c =? sep then [] :: split_on sep s'
    else
      match split_on sep s' with
      | w :: ws => (c :: w) :: ws
      | [] => [[c]]
      end
  end.

(** [sep.join(parts)]. *)
Fixpoint join (sep : pystr) (parts : list pystr) : pystr :=
  match parts with
  | [] => []
  | [w] => w
  | w :: ws => w ++ sep ++ join sep ws
  end.

Fixpoint lstrip_by (p : char -> bool) (s : pystr) : pystr :=
  match s with
  | [] => []
  | c :: s' => if p c then lstrip_by p s' else s
  end.

Fixpoint rstrip_by (p : char -> bool) (s : pystr) : pystr :=
  match s with
  | [] => []
  | c :: s' =>
    match rstrip_by p s' with
    | [] => if p c then [] else [c]
    | r => c :: r
    end
  end.

(** [s.strip()]. *)
Definition strip (s : pystr) : pystr := lstrip_by is_space (rstrip_by is_space s).

(** [s.rstrip(chars)]. *)
Definition rstrip (chars : pystr) (s : pystr) : pystr :=
  rstrip_by (fun c => existsb (N.eqb c) chars) s.

Fixpoint starts_with (pre s : pystr) : bool :=
  match pre, s with
  | [], _ => true
  | _ :: _, [] => false
  | a :: pre', b :: s' => (a =? b) && starts_with pre' s'
  end.

(** [s.endswith(suf)]. *)
Definition ends_with (suf s : pystr) : bool := starts_with (rev suf) (rev s).

(** [s.replace(old, new)] for a non-empty [old]: left to right, occurrences
    that do not overlap.  [skip] counts the characters of a matched [old]
    still to be passed over. *)
Fixpoint replace_from (old new : pystr) (skip : nat) (s : pystr) : pystr :=
  match s with
  | [] => []
  | c :: s' =>
    match skip with
    | S k => replace_from old new k s'
    | O =>
      if starts_with old s
      then new ++ replace_from old new (Nat.pred (length old)) s'
      else c :: replace_from old new O s'
    end
  end.

Definition replace (old new s : pystr) : pystr := replace_from old new O s.

(** [l[:n]] for a Python integer [n]: a negative [n] counts from the end. *)
Definition slice_to {A : Type} (n : Z) (l : list A) : list A :=
  if (0 <=? n)%Z then take (Z.to_nat n) l
  else take (length l - Z.to_nat (- n))%nat l.

(** Truth value of a string: [if s:]. *)
Definition truthy (s : pystr) : bool :=
  match s with [] => false | _ :: _ => true end.

Definition pystr_eqb (a b : pystr) : bool := bool_decide (a = b).

(** ASCII part of [str.lower] and [str.upper].  The comparisons of the
    source are with ['.pdf'], ['.docx'], ['.doc'] and ['.txt'], and no
    character outside [A-Z] lower-cases to one of their letters. *)
Definition lower_char (c : char) : char :=
  if (65 <=? c) && (c <=? 90) then c + 32 else c.
Definition upper_char (c : char) : char :=
  if (97 <=? c) && (c <=? 122) then c - 32 else c.
Definition lower (s : pystr) : pystr := map lower_char s.
Definition upper (s : pystr) : pystr := map upper_char s.

(** ** Codecs and text files *)

(** The encodings the source names: ['utf-8'], ['cp1251'], ['koi8-r'],
    ['iso-8859-1']. *)
Inductive encoding : Type := UTF8 | CP1251 | KOI8R | ISO8859_1.

(** Bytes 0x80..0xBF of cp1251 ([0] marks 0x98, which the codec leaves
    undefined) and bytes 0x80..0xFF of koi8-r. *)
Definition cp1251_high : list N :=
  [1026; 1027; 8218; 1107; 8222; 8230; 8224; 8225; 8364; 8240; 1033; 8249;
   1034; 1036; 1035; 1039; 1106; 8216; 8217; 8220; 8221; 8226; 8211; 8212;
   0; 8482; 1113; 8250; 1114; 1116; 1115; 1119; 160; 1038; 1118; 1032;
   164; 1168; 166; 167; 1025; 169; 1028; 171; 172; 173; 174; 1031;
   176; 177; 1030; 1110; 1169; 181; 182; 183; 1105; 8470; 1108; 187;
   1112; 1029; 1109; 1111].

Definition koi8r_high : list N :=
  [9472; 9474; 9484; 9488; 9492; 9496; 9500; 9508; 9516; 9524; 9532; 9600;
   9604; 9608; 9612; 9616; 9617; 9618; 9619; 8992; 9632; 8729; 8730; 8776;
   8804; 8805; 160; 8993; 176; 178; 183; 247; 9552; 9553; 9554; 1105;
   9555; 9556; 9557; 9558; 9559; 9560; 9561; 9562; 9563; 9564; 9565; 9566;
   9567; 9568; 9569; 1025; 9570; 9571; 9572; 9573; 9574; 9575; 9576; 9577;
   9578; 9579; 9580; 169; 1102; 1072; 1073; 1094; 1076; 1077; 1092; 1075;
   1093; 1080; 1081; 1082; 1083; 1084; 1085; 1086; 1087; 1103; 1088; 1089;
   1090; 1091; 1078; 1074; 1100; 1099; 1079; 1096; 1101; 1097; 1095; 1098;
   1070; 1040; 1041; 1062; 1044; 1045; 1060; 1043; 1061; 1048; 1049; 1050;
   1051; 1052; 1053; 1054; 1055; 1071; 1056; 1057; 1058; 1059; 1046; 1042;
   1068; 1067; 1047; 1064; 1069; 1065; 1063; 1066].

Definition cp1251_char (n : N) : option char :=
  if n <? 128 then Some n
  else if n <? 192 then
    match cp1251_high !! N.to_nat (n - 128) with
    | Some 0 | None => None
    | Some c => Some c
    end
  else Some (n + 848).

Definition koi8r_char (n : N) : option char :=
  if n <? 128 then Some n else koi8r_high !! N.to_nat (n - 128).

(** A one-byte codec: strict, or dropping the bytes it has no character
    for. *)
Fixpoint decode_bytewise (f : N -> option char) (ignore : bool) (bs : bytes)
  : option pystr :=
  match bs with
  | [] => Some []
  | b :: r =>
    match f (Byte.to_N b) with
    | Some c => cons c <$> decode_bytewise f ignore r
    | None => if ignore then decode_bytewise f ignore r else None
    end
  end.

(** [bs.decode(enc, errors)]; [None] is [UnicodeDecodeError]. *)
Definition decode (enc : encoding) (ignore : bool) (bs : bytes) : option pystr :=
  match enc with
  | UTF8 => utf8_decode ignore bs
  | CP1251 => decode_bytewise cp1251_char ignore bs
  | KOI8R => decode_bytewise koi8r_char ignore bs
  | ISO8859_1 => decode_bytewise Some ignore bs
  end.
Arguments decode : simpl never.

(** Text mode reads with universal newlines: [\r\n] and [\r] become [\n]. *)
Fixpoint universal_newlines (s : pystr) : pystr :=
  match s with
  | [] => []
  | c :: s' =>
    if c =? 13 then
      match s' with
      | d :: s'' =>
        if d =? 10 then 10 :: universal_newlines s''
        else 10 :: universal_newlines s'
      | [] => [10]
      end
    else c :: universal_newlines s'
  end.

(** ** Paths *)

Definition slash : char := 47.
Definition newline : char := 10.
Definition dot : char := 46.

(** The components [pathlib] keeps of a POSIX path: empty ones and ['.']
    are dropped. *)
Definition path_parts (p : pystr) : list pystr :=
  filter (fun c => c <> [] /\ c <> [dot]) (split_on slash p).

Definition path_root (p : pystr) : pystr :=
  if starts_with [slash; slash] p && negb (starts_with [slash; slash; slash] p)
  then [slash; slash]
  else if starts_with [slash] p then [slash] else [].

(** [Path(p).name]. *)
Definition path_name (p : pystr) : pystr := List.last (path_parts p) [].

(** [s.rfind(c)], [None] for -1. *)
Fixpoint rfind (c : char) (s : pystr) : option nat :=
  match s with
  | [] => None
  | d :: s' =>
    match rfind c s' with
    | Some i => Some (S i)
    | None => if d =? c then Some O else None
    end
  end.

(** The suffix of a file name: from its last dot, unless that dot is the
    first or the last character. *)
Definition name_suffix (name : pystr) : pystr :=
  match rfind dot name with
  | Some i =>
    if (0 <? i)%nat && (i <? length name - 1)%nat then drop i name else []
  | None => []
  end.

(** [Path(p).suffix]. *)
Definition path_suffix (p : pystr) : pystr := name_suffix (path_name p).

(** [str(Path(folder) / name)] for a directory entry [name]. *)
Definition path_child (folder name : pystr) : pystr :=
  path_root folder ++ join [slash] (path_parts folder ++ [name]).

(** [os.path.dirname]. *)
Definition dirname (p : pystr) : pystr :=
  let head :=
    match rfind slash p with
    | Some i => take (S i) p
    | None => []
    end in
  if forallb (N.eqb slash) head then head
  else rstrip_by (N.eqb slash) head.

(** ** Exceptions, the world and the monad *)

Inductive exn : Type :=
  | FileNotFoundError
  | UnicodeDecodeError
  | UnicodeEncodeError
  | OverflowError
  | ValueError
  | LibraryError (code : nat).

Inductive outcome (A : Type) : Type :=
  | Ok (a : A)
  | Raise (e : exn).
Arguments Ok {A} a.
Arguments Raise {A} e.

(** The parameters [model.generate] receives.  Float literals are kept as
    the decimal fractions the source writes. *)
Record gen_config : Type := {
  max_length : Z;
  min_length : Z;
  num_beams : Z;
  early_stopping : bool;
  repetition_penalty : Q;
  length_penalty : Q;
  no_repeat_ngram_size : Z
}.

(** Calls that leave the process: model and tokenizer, external programs. *)
Inductive call : Type :=
  | TokenizerLoad (model_path : pystr)
  | ModelLoad (model_path : pystr)
  | ModelTo (device : pystr)
  | Tokenize (prompt : pystr) (max_tokens : Z)
  | Generate (cfg : gen_config)
  | Decode
  | RunAntiword (doc_path : pystr)
  | RunLibreOffice (doc_path outdir : pystr).

(** The file system (paths are compared as written), the calls made so far,
    the temporary names handed out and the clock readings taken. *)
Record world : Type := {
  files : gmap pystr bytes;
  calls : list call;
  temps : nat;
  ticks : nat
}.

Definition M (A : Type) : Type := world -> outcome A * world.

Definition ret {A : Type} (a : A) : M A := fun w => (Ok a, w).
Definition raise {A : Type} (e : exn) : M A := fun w => (Raise e, w).
Definition bind {A B : Type} (m : M A) (k : A -> M B) : M B :=
  fun w =>
    match m w with
    | (Ok a, w') => k a w'
    | (Raise e, w') => (Raise e, w')
    end.
Definition lift {A : Type} (o : outcome A) : M A := fun w => (o, w).

Notation "x <- m ;; k" := (bind m (fun x => k))
  (at level 100, m at next level, right associativity).
Notation "m ;;; k" := (bind m (fun _ => k))
  (at level 100, right associativity).

(** [try: body except <classes>: handler]: the handler runs outside the
    protected block, on the world as the failed body left it. *)
Definition try_except {A : Type} (catches : exn -> bool) (body : M A)
  (handler : exn -> M A) : M A :=
  fun w =>
    match body w with
    | (Ok a, w') => (Ok a, w')
    | (Raise e, w') => if catches e then handler e w' else (Raise e, w')
    end.

(** [except Exception]. *)
Definition any_exception (e : exn) : bool := true.
Definition is_FileNotFoundError (e : exn) : bool :=
  match e with FileNotFoundError => true | _ => false end.
Definition is_UnicodeDecodeError (e : exn) : bool :=
  match e with UnicodeDecodeError => true | _ => false end.

Definition log_call (c : call) : M unit :=
  fun w => (Ok tt, {| files := files w; calls := calls w ++ [c];
                      temps := temps w; ticks := ticks w |}).

Definition set_files (fs : gmap pystr bytes) (w : world) : world :=
  {| files := fs; calls := calls w; temps := temps w; ticks := ticks w |}.

(** [os.remove]. *)
Definition os_remove (p : pystr) : M unit :=
  fun w =>
    match files w !! p with
    | Some _ => (Ok tt, set_files (delete p (files w)) w)
    | None => (Raise FileNotFoundError, w)
    end.

(** [with open(p, 'r', encoding=enc, errors=...) as f: f.read()]. *)
Definition open_read (p : pystr) (enc : encoding) (ignore : bool) : M pystr :=
  fun w =>
    match files w !! p with
    | None => (Raise FileNotFoundError, w)
    | Some bs =>
      match decode enc ignore bs with
      | Some t => (Ok (universal_newlines t), w)
      | None => (Raise UnicodeDecodeError, w)
      end
    end.

(** [Path(folder).glob('*' + ext)]: the entries of [folder] whose name ends
    with [ext], letter case as written. *)
Definition entry_name (folder key : pystr) : option pystr :=
  let n := path_name key in
  if truthy n && bool_decide (path_child folder n = key) then Some n else None.

Definition listdir (folder : pystr) (w : world) : list pystr :=
  omap (entry_name folder) (map fst (map_to_list (files w))).

Definition glob (folder ext : pystr) (w : world) : list pystr :=
  map (path_child folder) (List.filter (ends_with ext) (listdir folder w)).

(** ** Collaborators *)

(** A [python-docx] document: paragraph texts, and tables as rows of cell
    texts. *)
Record docx_document : Type := {
  paragraphs : list pystr;
  tables : list (list (list pystr))
}.

(** One entry of the batch result: the dict [process_folder] builds. *)
Record batch_record : Type := {
  r_filename : pystr;
  r_title : pystr;
  r_path : pystr;
  r_processed_at : pystr;
  r_word_count : nat
}.

(** What lies outside the repository.  [pdf_support] and [docx_support] are
    the flags [main.py] sets when its imports succeed.  A PDF is a list of
    pages, each the result of its [extract_text()].  [antiword] and
    [libreoffice] are [None] when the program is not installed; [antiword]
    maps the file (if it exists) to a return code and its output,
    [libreoffice] maps a document to the text file it converts to, if
    any.  [module_to] is [model.to(device)].  [json_dump] is the text
    [json.dump] writes for a list of records, and [write_failure] is what
    goes wrong, if anything, when that list is written to a path: the
    exception, and what is left in the file when it was opened ([None]
    when [open] itself raised: a missing directory, a directory at the
    path, no permission; [Some] of the part written when [json.dump]
    raised: a string that UTF-8 cannot encode, a full disk).  The file
    system holds no directories and no permissions, so this is the
    operating system's to say.  [isdir] tells which paths are directories;
    the program creates and removes none. *)
Record env : Type := {
  pdf_support : bool;
  docx_support : bool;
  pdfplumber_open : bytes -> outcome (list (outcome (option pystr)));
  docx_Document : bytes -> outcome docx_document;
  antiword : option (option bytes -> outcome (Z * pystr));
  libreoffice : option (bytes -> option bytes);
  tempdir : pystr;
  temp_name : nat -> pystr;
  tokenizer_from_pretrained : pystr -> outcome unit;
  model_from_pretrained : pystr -> outcome unit;
  module_to : pystr -> outcome unit;
  tokenizer_call : pystr -> Z -> outcome (list Z);
  model_generate : list Z -> gen_config -> outcome (list Z);
  tokenizer_decode : list Z -> outcome pystr;
  datetime_now : nat -> pystr;
  json_dump : list batch_record -> bytes;
  write_failure : pystr -> list batch_record -> option (exn * option bytes);
  isdir : pystr -> bool
}.

(** ** Floating point: [max_words * 0.3] and [int(...)] *)

(** [float(z)] for a Python integer, in binary64. *)
Definition float_of_int (z : Z) : outcome spec_float :=
  match binary_normalize 53 1024 z 0 false with
  | S754_infinity _ => Raise OverflowError
  | f => Ok f
  end.

(** The literal [0.3]: the binary64 number 0x1.3333333333333p-2. *)
Definition float_0_3 : spec_float := S754_finite false 5404319552844595 (-54).

(** [int(f)]: truncation toward zero. *)
Definition int_of_float (f : spec_float) : outcome Z :=
  match f with
  | S754_zero _ => Ok 0%Z
  | S754_finite s m e =>
    Ok (cond_Zopp s
          (match e with
           | Z0 => Zpos m
           | Zpos _ => Zpos m * 2 ^ e
           | Zneg p => Zpos m / 2 ^ Zpos p
           end)%Z)
  | S754_infinity _ => Raise OverflowError
  | S754_nan => Raise ValueError
  end.

(** [int(max_words * 0.3)]. *)
Definition int_times_0_3 (max_words : Z) : outcome Z :=
  match float_of_int max_words with
  | Ok f => int_of_float (SFmul 53 1024 f float_0_3)
  | Raise e => Raise e
  end.

(** ** Shared pieces of both files *)

Section Collaborators.
Context (E : env).

Definition pdfplumber_open_path (p : pystr) : M (list (outcome (option pystr))) :=
  fun w =>
    match files w !! p with
    | None => (Raise FileNotFoundError, w)
    | Some bs => (pdfplumber_open E bs, w)
    end.

Definition Document (p : pystr) : M docx_document :=
  fun w =>
    match files w !! p with
    | None => (Raise FileNotFoundError, w)
    | Some bs => (docx_Document E bs, w)
    end.

(** [subprocess.run(['antiword', doc_path], ...)]. *)
Definition run_antiword (doc_path : pystr) : M (Z * pystr) :=
  match antiword E with
  | None => raise FileNotFoundError
  | Some prog =>
    log_call (RunAntiword doc_path) ;;;
    (fun w => (prog (files w !! doc_path), w))
  end.

(** [tempfile.NamedTemporaryFile(suffix=..., delete=False)]: an empty file
    is created and stays; the result is its path. *)
Definition NamedTemporaryFile (suffix : pystr) : M pystr :=
  fun w =>
    let p := tempdir E ++ [slash] ++ lit "tmp" ++ temp_name E (temps w) ++ suffix in
    (Ok p, {| files := <[p := []]> (files w); calls := calls w;
              temps := S (temps w); ticks := ticks w |}).

Definition name_stem (name : pystr) : pystr :=
  take (length name - length (name_suffix name)) name.

(** [subprocess.run(['libreoffice', '--headless', '--convert-to', 'txt',
    doc_path, '--outdir', outdir], ...)]: the converted text is written to
    [outdir] under the document's own name with the extension [.txt]. *)
Definition run_libreoffice (doc_path outdir : pystr) : M unit :=
  match libreoffice E with
  | None => raise FileNotFoundError
  | Some convert =>
    log_call (RunLibreOffice doc_path outdir) ;;;
    (fun w =>
       match files w !! doc_path with
       | Some doc =>
         match convert doc with
         | Some txt =>
           (Ok tt,
            set_files
              (<[path_child outdir (name_stem (path_name doc_path) ++ lit ".txt") := txt]>
                 (files w)) w)
         | None => (Ok tt, w)
         end
       | None => (Ok tt, w)
       end)
  end.

Definition T5Tokenizer_from_pretrained (model_path : pystr) : M unit :=
  log_call (TokenizerLoad model_path) ;;; lift (tokenizer_from_pretrained E model_path).

Definition T5ForConditionalGeneration_from_pretrained (model_path : pystr) : M unit :=
  log_call (ModelLoad model_path) ;;; lift (model_from_pretrained E model_path).

(** [os.path.exists]: a file or a directory. *)
Definition path_exists (p : pystr) : M bool :=
  fun w => (Ok (bool_decide (is_Some (files w !! p)) || isdir E p), w).

(** [model.to(device)]. *)
Definition model_to (device : pystr) : M unit :=
  log_call (ModelTo device) ;;; lift (module_to E device).

(** [tokenizer(prompt, return_tensors="pt", truncation=True, max_length=n)]. *)
Definition tokenizer (prompt : pystr) (n : Z) : M (list Z) :=
  log_call (Tokenize prompt n) ;;; lift (tokenizer_call E prompt n).

Definition generate (inputs : list Z) (cfg : gen_config) : M (list Z) :=
  log_call (Generate cfg) ;;; lift (model_generate E inputs cfg).

(** [tokenizer.decode(outputs[0], skip_special_tokens=True)]. *)
Definition decode_output (outputs : list Z) : M pystr :=
  log_call Decode ;;; lift (tokenizer_decode E outputs).

(** [with open(output_file, 'w', encoding='utf-8') as f:
    json.dump(results, f, ensure_ascii=False, indent=2)]. *)
Definition dump_results (output_file : pystr) (results : list batch_record)
  : M unit :=
  fun w =>
    match write_failure E output_file results with
    | None =>
      (Ok tt, set_files (<[output_file := json_dump E results]> (files w)) w)
    | Some (e, None) => (Raise e, w)
    | Some (e, Some written) =>
      (Raise e, set_files (<[output_file := written]> (files w)) w)
    end.

(** [datetime.now().isoformat()]. *)
Definition now_isoformat : M pystr :=
  fun w => (Ok (datetime_now E (ticks w)),
            {| files := files w; calls := calls w; temps := temps w;
               ticks := S (ticks w) |}).

(** The page loop of [extract_text_from_pdf]. *)
Fixpoint pdf_pages (pages : list (outcome (option pystr))) (text_parts : list pystr)
  : M (list pystr) :=
  match pages with
  | [] => ret text_parts
  | page :: rest =>
    page_text <- lift page ;;
    match page_text with
    | Some t => if truthy t then pdf_pages rest (text_parts ++ [t])
                else pdf_pages rest text_parts
    | None => pdf_pages rest text_parts
    end
  end.

(** [extract_text_from_pdf]: the same in both files up to what is printed. *)
Definition extract_text_from_pdf (pdf_path : pystr) : M (option pystr) :=
  try_except any_exception
    (pages <- pdfplumber_open_path pdf_path ;;
     text_parts <- pdf_pages pages [] ;;
     let full_text := join [newline; newline] text_parts in
     ret (Some full_text))
    (fun _ => ret None).

(** The encoding loop of [extract_text_from_txt]: [Some text] when an
    iteration returns, [None] when the loop runs out. *)
Fixpoint txt_encodings (txt_path : pystr) (encodings : list encoding)
  : M (option pystr) :=
  match encodings with
  | [] => ret None
  | encoding :: rest =>
    try_except is_UnicodeDecodeError
      (text <- open_read txt_path encoding false ;; ret (Some text))
      (fun _ => txt_encodings txt_path rest)
  end.

Definition extract_text_from_txt_with (encodings : list encoding) (txt_path : pystr)
  : M (option pystr) :=
  try_except any_exception
    (found <- txt_encodings txt_path encodings ;;
     match found with
     | Some text => ret (Some text)
     | None => text <- open_read txt_path UTF8 true ;; ret (Some text)
     end)
    (fun _ => ret None).

End Collaborators.

(** ** [src/extract.py] *)

Module Extract.
Section WithEnv.
Context (E : env).

Definition extract_text_from_docx (docx_path : pystr) : M (option pystr) :=
  try_except any_exception
    (doc <- Document E docx_path ;;
     let from_paragraphs :=
       List.filter (fun t => truthy (strip t)) (paragraphs doc) in
     let from_tables :=
       List.filter (fun t => truthy (strip t)) (concat (concat (tables doc))) in
     let text_parts := from_paragraphs ++ from_tables in
     let full_text := join [newline; newline] text_parts in
     ret (Some full_text))
    (fun _ => ret None).

(** The two attempts of [extract_text_from_doc] give [Some text] when they
    return a text and [None] when control falls through to what follows. *)
Definition doc_via_antiword (doc_path : pystr) : M (option pystr) :=
  try_except is_FileNotFoundError
    (result <- run_antiword E doc_path ;;
     if (fst result =? 0)%Z then ret (Some (snd result)) else ret None)
    (fun _ => ret None).

Definition doc_via_libreoffice (doc_path : pystr) : M (option pystr) :=
  try_except any_exception
    (tmp_path <- NamedTemporaryFile E (lit ".txt") ;;
     run_libreoffice E doc_path (dirname tmp_path) ;;;
     let txt_file := replace (lit ".doc") (lit ".txt") doc_path in
     found <- path_exists E txt_file ;;
     if found : bool then
       text <- open_read txt_file UTF8 true ;;
       os_remove txt_file ;;;
       ret (Some text)
     else ret None)
    (fun _ => ret None).

Definition extract_text_from_doc (doc_path : pystr) : M (option pystr) :=
  try_except any_exception
    (first <- doc_via_antiword doc_path ;;
     match first with
     | Some text => ret (Some text)
     | None =>
       second <- doc_via_libreoffice doc_path ;;
       match second with
       | Some text => ret (Some text)
       | None => ret None
       end
     end)
    (fun _ => ret None).

Definition extract_text_from_txt : pystr -> M (option pystr) :=
  extract_text_from_txt_with [UTF8; CP1251; KOI8R; ISO8859_1].

Definition extract_text_from_file (file_path : pystr) : M (option pystr) :=
  try_except any_exception
    (let file_extension := lower (path_suffix file_path) in
     if pystr_eqb file_extension (lit ".pdf") then extract_text_from_pdf E file_path
     else if pystr_eqb file_extension (lit ".docx") then extract_text_from_docx file_path
     else if pystr_eqb file_extension (lit ".doc") then extract_text_from_doc file_path
     else if pystr_eqb file_extension (lit ".txt") then extract_text_from_txt file_path
     else ret None)
    (fun _ => ret None).

Definition model_path : pystr := lit "./models/rut5_base_sum_gazeta".

Definition title_config : gen_config :=
  {| max_length := 50; min_length := 15; num_beams := 3; early_stopping := true;
     repetition_penalty := 1.3; length_penalty := 1.0; no_repeat_ngram_size := 2 |}.

(** The clean-up of the decoded title in [generate_title_from_file]. *)
Definition clean_title (decoded : pystr) : pystr :=
  let title :=
    strip (replace (lit "Заголовок:") []
             (replace (lit "Заголовок документа:") [] decoded)) in
  let title :=
    if existsb (N.eqb dot) title
    then strip (nth 0 (split_on dot title) [])
    else title in
  let words := split title in
  let title :=
    if (25 <? length words)%nat then join (lit " ") (slice_to 25 words)
    else title in
  strip title.

Definition generate_title_from_file (file_path : pystr) : M (option pystr) :=
  text <- extract_text_from_file file_path ;;
  match text with
  | None => ret None
  | Some text =>
    if negb (truthy text) then ret None
    else
      try_except any_exception
        (T5Tokenizer_from_pretrained E model_path ;;;
         T5ForConditionalGeneration_from_pretrained E model_path ;;;
         model_to E (lit "cpu") ;;;
         let context := slice_to 600 text in
         let prompt := lit "Заголовок документа: " ++ context in
         inputs <- tokenizer E prompt 400 ;;
         outputs <- generate E inputs title_config ;;
         title <- decode_output E outputs ;;
         ret (Some (clean_title title)))
        (fun _ => ret None)
  end.

Definition supported_extensions : list pystr :=
  [lit ".pdf"; lit ".docx"; lit ".doc"; lit ".txt"].

(** The list [all_files] that [process_folder] collects before it reads
    any file. *)
Definition collect_files (folder_path : pystr) : M (list pystr) :=
  fun w =>
    (Ok (flat_map
           (fun ext => glob folder_path ext w ++ glob folder_path (upper ext) w)
           supported_extensions), w).

(** The loop over [all_files]. *)
Fixpoint process_files (all_files : list pystr) (results : list batch_record)
  : M (list batch_record) :=
  match all_files with
  | [] => ret results
  | file_path :: rest =>
    title <- generate_title_from_file file_path ;;
    match title with
    | Some title =>
      if truthy title then
        now <- now_isoformat E ;;
        process_files rest
          (results ++
             [{| r_filename := path_name file_path; r_title := title;
                 r_path := file_path; r_processed_at := now;
                 r_word_count := length (split title) |}])
      else process_files rest results
    | None => process_files rest results
    end
  end.

(** [if output_file and results:] and the write under it. *)
Definition save_results (output_file : option pystr) (results : list batch_record)
  : M unit :=
  match output_file, results with
  | Some out, _ :: _ =>
    if truthy out then dump_results E out results else ret tt
  | _, _ => ret tt
  end.

Definition process_folder (folder_path : pystr) (output_file : option pystr)
  : M (list batch_record) :=
  all_files <- collect_files folder_path ;;
  results <- process_files all_files [] ;;
  save_results output_file results ;;;
  ret results.

End WithEnv.
End Extract.

(** ** [src/main.py] *)

Module Main.
Section WithEnv.
Context (E : env).

Definition extract_text_from_docx (docx_path : pystr) : M (option pystr) :=
  try_except any_exception
    (doc <- Document E docx_path ;;
     let text_parts :=
       List.filter (fun t => truthy (strip t)) (paragraphs doc) in
     let full_text := join [newline; newline] text_parts in
     ret (Some full_text))
    (fun _ => ret None).

Definition extract_text_from_txt : pystr -> M (option pystr) :=
  extract_text_from_txt_with [UTF8; CP1251; KOI8R].

Definition extract_text_from_file (file_path : pystr) : M (option pystr) :=
  try_except any_exception
    (let file_extension := lower (path_suffix file_path) in
     if pystr_eqb file_extension (lit ".pdf") && pdf_support E
     then extract_text_from_pdf E file_path
     else if pystr_eqb file_extension (lit ".docx") && docx_support E
     then extract_text_from_docx file_path
     else if pystr_eqb file_extension (lit ".txt")
     then extract_text_from_txt file_path
     else ret None)
    (fun _ => ret None).

(** The sentinels [generate_annotation] returns in place of an
    annotation. *)
Definition NO_TEXT : pystr := lit "Текст не найден".
Definition GENERATION_ERROR : pystr := lit "Ошибка генерации".

Definition default_model_path : pystr := lit "./models/rut5_base_sum_gazeta".

(** The tiers of [max_length] and [length_penalty]. *)
Definition tier (max_words : Z) : Z * Q :=
  if (max_words <=? 15)%Z then (40%Z, 1.2%Q)
  else if (max_words <=? 25)%Z then (55%Z, 1.0%Q)
  else if (max_words <=? 35)%Z then (70%Z, 0.9%Q)
  else (85%Z, 0.8%Q).

(** The keyword arguments of [model.generate]; evaluating them can raise
    ([max_words * 0.3] overflows for integers beyond the floats). *)
Definition generation_config (max_words : Z) : outcome gen_config :=
  match int_times_0_3 max_words with
  | Ok third =>
    Ok {| max_length := fst (tier max_words);
          min_length := Z.max 15 third;
          num_beams := 3;
          early_stopping := true;
          repetition_penalty := 1.2;
          length_penalty := snd (tier max_words);
          no_repeat_ngram_size := 2 |}
  | Raise e => Raise e
  end.

(** Step 1 of the clean-up: the prompt's prefix is removed from the decoded
    output. *)
Definition strip_prefix (decoded : pystr) : pystr :=
  strip (replace (lit "Заголовок:") []
           (replace (lit "Заголовок документа:") [] decoded)).

(** Step 2: up to the first sentence, unless it is too short. *)
Definition first_sentence (title : pystr) (max_words : Z) : pystr :=
  let sentences := split_on dot title in
  if (1 <? length sentences)%nat then
    let first := strip (nth 0 sentences []) in
    if (5 <=? length (split first))%nat then first
    else
      let two := strip (join (lit ". ") (slice_to 2 sentences)) in
      if (Z.of_nat (length (split two)) <=? max_words)%Z then two else title
  else title.

(** Steps 1 to 3: the title before it is cut to [max_words] words. *)
Definition cleaned_title (decoded : pystr) (max_words : Z) : pystr :=
  rstrip (lit ". ") (first_sentence (strip_prefix decoded) max_words).

(** Step 4: at most [max_words] words. *)
Definition limit_words (title : pystr) (max_words : Z) : pystr :=
  let words := split title in
  let title :=
    if (max_words <? Z.of_nat (length words))%Z
    then join (lit " ") (slice_to max_words words)
    else title in
  strip title.

Definition generate_annotation (text : pystr) (max_words : Z) (model_path : pystr)
  : M pystr :=
  if negb (truthy text) || (length (strip text) =? 0)%nat then ret NO_TEXT
  else
    try_except any_exception
      (T5Tokenizer_from_pretrained E model_path ;;;
       T5ForConditionalGeneration_from_pretrained E model_path ;;;
       model_to E (lit "cpu") ;;;
       let context_length := Z.min (500 + max_words * 10) 1000 in
       let context := slice_to context_length text in
       let prompt := lit "Заголовок документа: " ++ context in
       inputs <- tokenizer E prompt 512 ;;
       cfg <- lift (generation_config max_words) ;;
       outputs <- generate E inputs cfg ;;
       title <- decode_output E outputs ;;
       ret (limit_words (cleaned_title title max_words) max_words))
      (fun _ => ret GENERATION_ERROR).

Definition generate_annotation_from_file (file_path : pystr) (max_words : Z)
  : M pystr :=
  found <- path_exists E file_path ;;
  if negb found then ret (lit "❌ Файл не найден: " ++ file_path)
  else
    text <- extract_text_from_file file_path ;;
    match text with
    | Some text =>
      if truthy text then generate_annotation text max_words default_model_path
      else ret (lit "❌ Не удалось извлечь текст из файла")
    | None => ret (lit "❌ Не удалось извлечь текст из файла")
    end.

End WithEnv.
End Main.

(** A world with the given files and nothing done yet. *)
Definition initial (fs : gmap pystr bytes) : world :=
  {| files := fs; calls := []; temps := 0; ticks := 0 |}.

(** A word: what [split] returns, a non-empty string without white
    space. *)
Definition is_word (w : pystr) : Prop :=
  w <> [] /\ forallb (fun c => negb (is_space c)) w = true.

(** [len(s.split())]. *)
Definition word_count (s : pystr) : nat := length (split s).

(** The spec's reading of the minimum length, [round(0.3 * max_words)]:
    [r] is an integer nearest to three tenths of [max_words]. *)
Definition is_round_of_three_tenths (max_words r : Z) : Prop :=
  (Z.abs (10 * r - 3 * max_words) <= 5)%Z.

(** Whether [generation_config] passes [max(15, 3 * max_words quot 10)] as
    the minimum length. *)
Definition min_length_truncates (max_words : Z) : bool :=
  match Main.generation_config max_words with
  | Ok cfg => (min_length cfg =? Z.max 15 (Z.quot (3 * max_words) 10))%Z
  | Raise _ => false
  end.

(** [p] holds of [z], ..., [z + n - 1] and of their negations. *)
Fixpoint holds_from (p : Z -> bool) (z : Z) (n : nat) : bool :=
  match n with
  | O => true
  | S k => p z && p (- z)%Z && holds_from p (z + 1)%Z k
  end.

(** The decoded output of the spec's sentence example. *)
Definition report : pystr := lit "Report on annual results. Summary follows.".

(** ** Sample collaborators

    No external converter installed, PDF and DOCX parsers that reject every
    file, and a model that loads and decodes every output to [decoded]. *)
Definition sample_env (decoded : pystr) : env :=
  {| pdf_support := true;
     docx_support := true;
     pdfplumber_open := fun _ => Raise (LibraryError 1);
     docx_Document := fun _ => Raise (LibraryError 2);
     antiword := None;
     libreoffice := None;
     tempdir := lit "/tmp";
     temp_name := fun _ => lit "0";
     tokenizer_from_pretrained := fun _ => Ok tt;
     model_from_pretrained := fun _ => Ok tt;
     module_to := fun _ => Ok tt;
     tokenizer_call := fun _ _ => Ok [];
     model_generate := fun _ _ => Ok [];
     tokenizer_decode := fun _ => Ok decoded;
     datetime_now := fun _ => lit "2024-01-01T00:00:00";
     json_dump := fun _ => [];
     write_failure := fun _ _ => None;
     isdir := fun _ => false |}.

(** The word "Привет" in cp1251, and a file system that holds it. *)
Definition privet_cp1251 : bytes := [xcf; xf0; xe8; xe2; xe5; xf2].
Definition cyrillic_files : gmap pystr bytes :=
  {[ lit "notes.txt" := privet_cp1251 ]}.

(** LibreOffice installed (every document converts to the text
    "converted"), antiword not installed, and a model directory that is
    missing, so that loading the tokenizer fails. *)
Definition converted : bytes := list_byte_of_string "converted".

Definition office_env : env :=
  {| pdf_support := true;
     docx_support := true;
     pdfplumber_open := fun _ => Raise (LibraryError 1);
     docx_Document := fun _ => Raise (LibraryError 2);
     antiword := None;
     libreoffice := Some (fun _ => Some converted);
     tempdir := lit "/tmp";
     temp_name := fun _ => lit "0";
     tokenizer_from_pretrained := fun _ => Raise (LibraryError 3);
     model_from_pretrained := fun _ => Raise (LibraryError 3);
     module_to := fun _ => Ok tt;
     tokenizer_call := fun _ _ => Ok [];
     model_generate := fun _ _ => Ok [];
     tokenizer_decode := fun _ => Ok [];
     datetime_now := fun _ => lit "2024-01-01T00:00:00";
     json_dump := fun _ => [];
     write_failure := fun _ _ => None;
     isdir := fun _ => false |}.

(** A report in a data directory. *)
Definition report_files : gmap pystr bytes :=
  {[ lit "/data/report.doc" := list_byte_of_string "DOC" ]}.

(** A folder with a document and a text file of the same stem. *)
Definition folder_files : gmap pystr bytes :=
  <[ lit "d/a.doc" := list_byte_of_string "DOC" ]>
    {[ lit "d/a.txt" := list_byte_of_string "old results" ]}.

(** A folder with a readable text file and a PDF. *)
Definition docs_files : gmap pystr bytes :=
  <[ lit "docs/notes.txt" := list_byte_of_string "Minutes of the annual meeting" ]>
    {[ lit "docs/scan.pdf" := list_byte_of_string "not a pdf" ]}.

Definition docs_env : env := sample_env (lit "Annual meeting minutes").

(** The prompt [generate_annotation] builds from the text. *)
Definition annotation_prompt (text : pystr) (max_words : Z) : pystr :=
  lit "Заголовок документа: " ++ slice_to (Z.min (500 + max_words * 10) 1000) text.

(** The texts [extract_text_from_pdf] keeps: those of the pages whose
    [extract_text()] gave a non-empty string, in page order. *)
Definition pages_with_text (texts : list (option pystr)) : list pystr :=
  omap (fun t => match t with
                 | Some s => if truthy s then Some s else None
                 | None => None
                 end) texts.

(** Sample collaborators with chosen parsers and external programs. *)
Definition sample_env_with
    (pdf : bytes -> outcome (list (outcome (option pystr))))
    (docx : bytes -> outcome docx_document)
    (aw : option (option bytes -> outcome (Z * pystr)))
    (lo : option (bytes -> option bytes))
    (decoded : pystr) : env :=
  {| pdf_support := true;
     docx_support := true;
     pdfplumber_open := pdf;
     docx_Document := docx;
     antiword := aw;
     libreoffice := lo;
     tempdir := lit "/tmp";
     temp_name := fun _ => lit "0";
     tokenizer_from_pretrained := fun _ => Ok tt;
     model_from_pretrained := fun _ => Ok tt;
     module_to := fun _ => Ok tt;
     tokenizer_call := fun _ _ => Ok [];
     model_generate := fun _ _ => Ok [];
     tokenizer_decode := fun _ => Ok decoded;
     datetime_now := fun _ => lit "2024-01-01T00:00:00";
     json_dump := fun _ => list_byte_of_string "[...]";
     write_failure := fun _ _ => None;
     isdir := fun _ => false |}.

(** A three-page PDF whose second page has no text layer. *)
Definition three_pages : list (option pystr) :=
  [Some (lit "First page"); None; Some (lit "Third page")].

Definition pdf_env : env :=
  sample_env_with (fun _ => Ok (map Ok three_pages))
    (fun _ => Raise (LibraryError 2)) None None (lit "A title").

(** A scanned PDF: two pages, neither with text. *)
Definition scan_env : env :=
  sample_env_with (fun _ => Ok [Ok None; Ok (Some [])])
    (fun _ => Raise (LibraryError 2)) None None (lit "A title").

(** A PDF whose second page fails to parse. *)
Definition broken_page_env : env :=
  sample_env_with (fun _ => Ok [Ok (Some (lit "First page")); Raise (LibraryError 7)])
    (fun _ => Raise (LibraryError 2)) None None (lit "A title").

(** Word documents: one with text and an empty table cell, one blank. *)
Definition hello_docx : docx_document :=
  {| paragraphs := [[]; lit "  "; lit "Hello"]; tables := [[[lit " "]]] |}.

Definition hello_env : env :=
  sample_env_with (fun _ => Raise (LibraryError 1)) (fun _ => Ok hello_docx)
    None None (lit "A title").

Definition blank_docx : docx_document :=
  {| paragraphs := [[]; lit "  "]; tables := [[[lit " "; []]]] |}.

Definition blank_env : env :=
  sample_env_with (fun _ => Raise (LibraryError 1)) (fun _ => Ok blank_docx)
    None None (lit "A title").

Definition office_files : gmap pystr bytes :=
  <[ lit "in/paper.pdf" := list_byte_of_string "%PDF" ]>
    (<[ lit "in/letter.docx" := list_byte_of_string "PK" ]>
       {[ lit "in/old.doc" := list_byte_of_string "DOC" ]}).

(** A text file in UTF-8. *)
Definition utf8_files : gmap pystr bytes :=
  {[ lit "notes.txt" := list_byte_of_string "Привет, мир" ]}.

(** The three paths [extract_text_from_doc] deals with: the temporary file
    it creates, the place it looks for the converted text, and the place
    LibreOffice writes it to. *)
Definition doc_tmp_path (E : env) (w : world) : pystr :=
  tempdir E ++ [slash] ++ lit "tmp" ++ temp_name E (temps w) ++ lit ".txt".

Definition doc_txt_file (doc_path : pystr) : pystr :=
  replace (lit ".doc") (lit ".txt") doc_path.

Definition doc_converted_path (E : env) (w : world) (doc_path : pystr) : pystr :=
  path_child (dirname (doc_tmp_path E w))
    (name_stem (path_name doc_path) ++ lit ".txt").

(** antiword installed and succeeding on every file. *)
Definition antiword_env : env :=
  sample_env_with (fun _ => Raise (LibraryError 1)) (fun _ => Raise (LibraryError 2))
    (Some (fun _ => Ok (0%Z, lit "text from antiword"))) None (lit "A title").

(** A document kept in the temporary directory. *)
Definition tmp_files : gmap pystr bytes :=
  {[ lit "/tmp/report.doc" := list_byte_of_string "DOC" ]}.

(** The script of [main.py]: the maximum number of words it passes on.
    [py_int] is [int(...)] on a string, [None] for [ValueError].  In
    interactive mode an empty answer keeps the default of 35 and a number
    is clamped to 5..50. *)
Definition interactive_max_words (py_int : pystr -> option Z)
    (max_words_input : pystr) : Z :=
  let max_words := 35%Z in
  if truthy max_words_input then
    match py_int max_words_input with
    | Some n => if (n <? 5)%Z then 5%Z else if (50 <? n)%Z then 50%Z else n
    | None => max_words
    end
  else max_words.

(** The two messages of [generate_annotation_from_file]. *)
Definition FILE_NOT_FOUND : pystr := lit "❌ Файл не найден: ".
Definition NO_TEXT_EXTRACTED : pystr := lit "❌ Не удалось извлечь текст из файла".

(** What every record of a batch satisfies, for the list of files that was
    scanned. *)
Definition record_ok (all_files : list pystr) (r : batch_record) : Prop :=
  r_path r ∈ all_files /\
  r_filename r = path_name (r_path r) /\
  r_title r <> [] /\
  r_word_count r = word_count (r_title r) /\
  (1 <= r_word_count r <= 25)%nat.

(** The eight patterns of [process_folder], without the star. *)
Definition scan_patterns : list pystr :=
  [lit ".pdf"; lit ".PDF"; lit ".docx"; lit ".DOCX";
   lit ".doc"; lit ".DOC"; lit ".txt"; lit ".TXT"].





(** ** The console

    The definitions above leave [print] out: they give what the functions
    return and do to the world when every line reaches the console.  The
    modules below are the same functions with their [print] statements.
    Printing encodes the line for the stream behind [sys.stdout] and
    raises when that fails: [UnicodeEncodeError] for a character the
    stream's encoding has no bytes for, an [OSError] for a closed pipe.
    What a console accepts, and the text [str(e)] an exception carries,
    are given from outside like the libraries. *)
Record console : Type := {
  stdout_print : pystr -> outcome unit;
  exception_str : exn -> pystr
}.

(** [print(s)]. *)
Definition print (C : console) (s : pystr) : M unit := lift (stdout_print C s).

(** [str(n)] for a length or a page number. *)
Fixpoint digits (u : Decimal.uint) : pystr :=
  match u with
  | Decimal.Nil => []
  | Decimal.D0 u => 48 :: digits u
  | Decimal.D1 u => 49 :: digits u
  | Decimal.D2 u => 50 :: digits u
  | Decimal.D3 u => 51 :: digits u
  | Decimal.D4 u => 52 :: digits u
  | Decimal.D5 u => 53 :: digits u
  | Decimal.D6 u => 54 :: digits u
  | Decimal.D7 u => 55 :: digits u
  | Decimal.D8 u => 56 :: digits u
  | Decimal.D9 u => 57 :: digits u
  end.

Definition str_of_nat (n : nat) : pystr := digits (Nat.to_uint n).

(** The names the source gives the codecs. *)
Definition encoding_name (encoding : encoding) : pystr :=
  match encoding with
  | UTF8 => lit "utf-8"
  | CP1251 => lit "cp1251"
  | KOI8R => lit "koi8-r"
  | ISO8859_1 => lit "iso-8859-1"
  end.

(** ** [src/extract.py] with its console output *)

Module ExtractIO.
Section WithConsole.
Context (C : console) (E : env).

(** The page loop; [page_num] counts from 1. *)
Fixpoint pdf_pages (pages : list (outcome (option pystr))) (page_num : nat)
    (text_parts : list pystr) : M (list pystr) :=
  match pages with
  | [] => ret text_parts
  | page :: rest =>
    page_text <- lift page ;;
    match page_text with
    | Some t =>
      if truthy t then pdf_pages rest (S page_num) (text_parts ++ [t])
      else
        print C (lit "   Страница " ++ str_of_nat page_num ++ lit ": текст не найден") ;;;
        pdf_pages rest (S page_num) text_parts
    | None =>
      print C (lit "   Страница " ++ str_of_nat page_num ++ lit ": текст не найден") ;;;
      pdf_pages rest (S page_num) text_parts
    end
  end.

Definition extract_text_from_pdf (pdf_path : pystr) : M (option pystr) :=
  print C (lit "📄 Читаю PDF: " ++ pdf_path) ;;;
  try_except any_exception
    (pages <- pdfplumber_open_path E pdf_path ;;
     text_parts <- pdf_pages pages 1 [] ;;
     let full_text := join [newline; newline] text_parts in
     print C (lit "✅ Прочитано " ++ str_of_nat (length pages) ++ lit " страниц, " ++ str_of_nat (length full_text) ++ lit " символов") ;;;
     ret (Some full_text))
    (fun e =>
       print C (lit "❌ Ошибка при чтении PDF: " ++ exception_str C e) ;;;
       ret None).

Definition extract_text_from_docx (docx_path : pystr) : M (option pystr) :=
  print C (lit "📄 Читаю DOCX: " ++ docx_path) ;;;
  try_except any_exception
    (doc <- Document E docx_path ;;
     let from_paragraphs :=
       List.filter (fun t => truthy (strip t)) (paragraphs doc) in
     let from_tables :=
       List.filter (fun t => truthy (strip t)) (concat (concat (tables doc))) in
     let text_parts := from_paragraphs ++ from_tables in
     let full_text := join [newline; newline] text_parts in
     print C (lit "✅ Прочитано " ++ str_of_nat (length full_text) ++ lit " символов") ;;;
     ret (Some full_text))
    (fun e =>
       print C (lit "❌ Ошибка при чтении DOCX: " ++ exception_str C e) ;;;
       ret None).

Definition doc_via_antiword (doc_path : pystr) : M (option pystr) :=
  try_except is_FileNotFoundError
    (result <- run_antiword E doc_path ;;
     if (fst result =? 0)%Z then
       let text := snd result in
       print C (lit "✅ Прочитано " ++ str_of_nat (length text) ++ lit " символов (через antiword)") ;;;
       ret (Some text)
     else ret None)
    (fun _ =>
       print C (lit "⚠️  antiword не установлен, пробую другие методы...") ;;;
       ret None).

Definition doc_via_libreoffice (doc_path : pystr) : M (option pystr) :=
  try_except any_exception
    (tmp_path <- NamedTemporaryFile E (lit ".txt") ;;
     run_libreoffice E doc_path (dirname tmp_path) ;;;
     let txt_file := replace (lit ".doc") (lit ".txt") doc_path in
     found <- path_exists E txt_file ;;
     if found : bool then
       text <- open_read txt_file UTF8 true ;;
       os_remove txt_file ;;;
       print C (lit "✅ Прочитано " ++ str_of_nat (length text) ++ lit " символов (через конвертацию)") ;;;
       ret (Some text)
     else ret None)
    (fun e =>
       print C (lit "⚠️  Ошибка конвертации: " ++ exception_str C e) ;;;
       ret None).

Definition extract_text_from_doc (doc_path : pystr) : M (option pystr) :=
  print C (lit "📄 Читаю DOC: " ++ doc_path) ;;;
  try_except any_exception
    (first <- doc_via_antiword doc_path ;;
     match first with
     | Some text => ret (Some text)
     | None =>
       second <- doc_via_libreoffice doc_path ;;
       match second with
       | Some text => ret (Some text)
       | None =>
         print C (lit "❌ Не удалось прочитать DOC файл. Установите antiword или LibreOffice") ;;;
         ret None
       end
     end)
    (fun e =>
       print C (lit "❌ Ошибка при чтении DOC: " ++ exception_str C e) ;;;
       ret None).

(** The encoding loop: [Some text] when an iteration returns, [None] when
    the loop runs out. *)
Fixpoint txt_encodings (txt_path : pystr) (encodings : list encoding)
  : M (option pystr) :=
  match encodings with
  | [] => ret None
  | encoding :: rest =>
    try_except is_UnicodeDecodeError
      (text <- open_read txt_path encoding false ;;
       print C (lit "✅ Прочитано " ++ str_of_nat (length text) ++ lit " символов (кодировка: " ++ encoding_name encoding ++ lit ")") ;;;
       ret (Some text))
      (fun _ => txt_encodings txt_path rest)
  end.

Definition extract_text_from_txt (txt_path : pystr) : M (option pystr) :=
  print C (lit "📄 Читаю TXT: " ++ txt_path) ;;;
  try_except any_exception
    (found <- txt_encodings txt_path [UTF8; CP1251; KOI8R; ISO8859_1] ;;
     match found with
     | Some text => ret (Some text)
     | None =>
       text <- open_read txt_path UTF8 true ;;
       print C (lit "⚠️  Прочитано с игнорированием ошибок: " ++ str_of_nat (length text) ++ lit " символов") ;;;
       ret (Some text)
     end)
    (fun e =>
       print C (lit "❌ Ошибка при чтении TXT: " ++ exception_str C e) ;;;
       ret None).

Definition extract_text_from_file (file_path : pystr) : M (option pystr) :=
  try_except any_exception
    (let file_extension := lower (path_suffix file_path) in
     if pystr_eqb file_extension (lit ".pdf") then extract_text_from_pdf file_path
     else if pystr_eqb file_extension (lit ".docx") then extract_text_from_docx file_path
     else if pystr_eqb file_extension (lit ".doc") then extract_text_from_doc file_path
     else if pystr_eqb file_extension (lit ".txt") then extract_text_from_txt file_path
     else
       print C (lit "❌ Неподдерживаемый формат файла: " ++ file_extension) ;;;
       ret None)
    (fun e =>
       print C (lit "❌ Ошибка при чтении файла " ++ file_path ++ lit ": " ++ exception_str C e) ;;;
       ret None).

Definition generate_title_from_file (file_path : pystr) : M (option pystr) :=
  text <- extract_text_from_file file_path ;;
  match text with
  | None =>
    print C (lit "❌ Не удалось извлечь текст из файла") ;;;
    ret None
  | Some text =>
    if negb (truthy text) then
      print C (lit "❌ Не удалось извлечь текст из файла") ;;;
      ret None
    else
      try_except any_exception
        (T5Tokenizer_from_pretrained E Extract.model_path ;;;
         T5ForConditionalGeneration_from_pretrained E Extract.model_path ;;;
         model_to E (lit "cpu") ;;;
         let context := slice_to 600 text in
         let prompt := lit "Заголовок документа: " ++ context in
         inputs <- tokenizer E prompt 400 ;;
         outputs <- generate E inputs Extract.title_config ;;
         title <- decode_output E outputs ;;
         ret (Some (Extract.clean_title title)))
        (fun e =>
           print C (lit "❌ Ошибка при генерации названия: " ++ exception_str C e) ;;;
           ret None)
  end.

(** The loop over [all_files]. *)
Fixpoint process_files (all_files : list pystr) (results : list batch_record)
  : M (list batch_record) :=
  match all_files with
  | [] => ret results
  | file_path :: rest =>
    print C ([newline] ++ repeat 61 60) ;;;
    print C (lit "Обрабатываю: " ++ path_name file_path) ;;;
    title <- generate_title_from_file file_path ;;
    match title with
    | Some title =>
      if truthy title then
        now <- now_isoformat E ;;
        let results :=
          results ++
            [{| r_filename := path_name file_path; r_title := title;
                r_path := file_path; r_processed_at := now;
                r_word_count := length (split title) |}] in
        print C (lit "✅ Название: " ++ title) ;;;
        print C (lit "📏 Слов: " ++ str_of_nat (length (split title))) ;;;
        process_files rest results
      else
        print C (lit "❌ Не удалось обработать файл") ;;;
        process_files rest results
    | None =>
      print C (lit "❌ Не удалось обработать файл") ;;;
      process_files rest results
    end
  end.

(** [if output_file and results:] with the write and the line under it. *)
Definition save_results (output_file : option pystr) (results : list batch_record)
  : M unit :=
  match output_file, results with
  | Some out, _ :: _ =>
    if truthy out then
      dump_results E out results ;;;
      print C ([newline] ++ lit "💾 Результаты сохранены в: " ++ out)
    else ret tt
  | _, _ => ret tt
  end.

Definition process_folder (folder_path : pystr) (output_file : option pystr)
  : M (list batch_record) :=
  print C (lit "📁 Обрабатываю папку: " ++ folder_path) ;;;
  all_files <- Extract.collect_files folder_path ;;
  print C (lit "📊 Найдено файлов: " ++ str_of_nat (length all_files)) ;;;
  results <- process_files all_files [] ;;
  save_results output_file results ;;;
  ret results.

End WithConsole.
End ExtractIO.

(** ** [src/main.py] with its console output *)

Module MainIO.
Section WithConsole.
Context (C : console) (E : env).

Definition extract_text_from_pdf (pdf_path : pystr) : M (option pystr) :=
  try_except any_exception
    (pages <- pdfplumber_open_path E pdf_path ;;
     text_parts <- pdf_pages pages [] ;;
     let full_text := join [newline; newline] text_parts in
     (if truthy full_text
      then print C (lit "📄 PDF: прочитано " ++ str_of_nat (length pages) ++ lit " страниц, " ++ str_of_nat (length full_text) ++ lit " символов")
      else print C (lit "⚠️  PDF: не удалось извлечь текст (возможно, сканированный документ)")) ;;;
     ret (Some full_text))
    (fun e =>
       print C (lit "❌ Ошибка при чтении PDF: " ++ slice_to 100 (exception_str C e)) ;;;
       ret None).

Definition extract_text_from_docx (docx_path : pystr) : M (option pystr) :=
  try_except any_exception
    (doc <- Document E docx_path ;;
     let text_parts :=
       List.filter (fun t => truthy (strip t)) (paragraphs doc) in
     let full_text := join [newline; newline] text_parts in
     print C (lit "📄 DOCX: прочитано " ++ str_of_nat (length full_text) ++ lit " символов") ;;;
     ret (Some full_text))
    (fun e =>
       print C (lit "❌ Ошибка при чтении DOCX: " ++ slice_to 100 (exception_str C e)) ;;;
       ret None).

Fixpoint txt_encodings (txt_path : pystr) (encodings : list encoding)
  : M (option pystr) :=
  match encodings with
  | [] => ret None
  | encoding :: rest =>
    try_except is_UnicodeDecodeError
      (text <- open_read txt_path encoding false ;;
       print C (lit "📄 TXT: прочитано " ++ str_of_nat (length text) ++ lit " символов (кодировка: " ++ encoding_name encoding ++ lit ")") ;;;
       ret (Some text))
      (fun _ => txt_encodings txt_path rest)
  end.

Definition extract_text_from_txt (txt_path : pystr) : M (option pystr) :=
  try_except any_exception
    (found <- txt_encodings txt_path [UTF8; CP1251; KOI8R] ;;
     match found with
     | Some text => ret (Some text)
     | None =>
       text <- open_read txt_path UTF8 true ;;
       print C (lit "📄 TXT: прочитано " ++ str_of_nat (length text) ++ lit " символов (с игнорированием ошибок)") ;;;
       ret (Some text)
     end)
    (fun e =>
       print C (lit "❌ Ошибка при чтении TXT: " ++ slice_to 100 (exception_str C e)) ;;;
       ret None).

Definition extract_text_from_file (file_path : pystr) : M (option pystr) :=
  try_except any_exception
    (let file_extension := lower (path_suffix file_path) in
     if pystr_eqb file_extension (lit ".pdf") && pdf_support E
     then extract_text_from_pdf file_path
     else if pystr_eqb file_extension (lit ".docx") && docx_support E
     then extract_text_from_docx file_path
     else if pystr_eqb file_extension (lit ".txt")
     then extract_text_from_txt file_path
     else
       print C (lit "❌ Неподдерживаемый формат или отсутствует библиотека: " ++ file_extension) ;;;
       ret None)
    (fun e =>
       print C (lit "❌ Ошибка при чтении файла " ++ file_path ++ lit ": " ++ slice_to 100 (exception_str C e)) ;;;
       ret None).

Definition generate_annotation (text : pystr) (max_words : Z) (model_path : pystr)
  : M pystr :=
  if negb (truthy text) || (length (strip text) =? 0)%nat then ret Main.NO_TEXT
  else
    try_except any_exception
      (T5Tokenizer_from_pretrained E model_path ;;;
       T5ForConditionalGeneration_from_pretrained E model_path ;;;
       model_to E (lit "cpu") ;;;
       let context_length := Z.min (500 + max_words * 10) 1000 in
       let context := slice_to context_length text in
       let prompt := lit "Заголовок документа: " ++ context in
       inputs <- tokenizer E prompt 512 ;;
       cfg <- lift (Main.generation_config max_words) ;;
       outputs <- generate E inputs cfg ;;
       title <- decode_output E outputs ;;
       ret (Main.limit_words (Main.cleaned_title title max_words) max_words))
      (fun e =>
         print C (lit "❌ Ошибка при генерации аннотации: " ++ slice_to 100 (exception_str C e)) ;;;
         ret Main.GENERATION_ERROR).

Definition generate_annotation_from_file (file_path : pystr) (max_words : Z)
  : M pystr :=
  print C ([newline] ++ repeat 61 60) ;;;
  print C (lit "📁 Обработка файла: " ++ path_name file_path) ;;;
  print C (repeat 61 60) ;;;
  found <- path_exists E file_path ;;
  if negb found then ret (lit "❌ Файл не найден: " ++ file_path)
  else
    text <- extract_text_from_file file_path ;;
    match text with
    | Some text =>
      if truthy text then
        print C (lit "🤖 Генерирую аннотацию...") ;;;
        generate_annotation text max_words Main.default_model_path
      else ret (lit "❌ Не удалось извлечь текст из файла")
    | None => ret (lit "❌ Не удалось извлечь текст из файла")
    end.

End WithConsole.
End MainIO.

(** A console that writes UTF-8 with [errors='strict'], the default of a
    UTF-8 locale: a line prints unless it holds a surrogate code point,
    U+D800 to U+DFFF, which UTF-8 cannot encode. *)
Definition is_surrogate (c : char) : bool := (55296 <=? c) && (c <=? 57343).

Definition utf8_console (texts : exn -> pystr) : console :=
  {| stdout_print := fun s =>
       if existsb is_surrogate s then Raise UnicodeEncodeError else Ok tt;
     exception_str := texts |}.

(** The name [a.] followed by U+DCFF: what [os.fsdecode] makes of a file
    name whose last byte, 0xFF, is not UTF-8. *)
Definition undecodable_name : pystr := [97; 46; 56575].

(** Actions that leave the world as it is, and actions that leave the
    files as they are. *)
Definition leaves_world {A : Type} (m : M A) : Prop :=
  forall w, snd (m w) = w.

Definition leaves_files {A : Type} (m : M A) : Prop :=
  forall w, files (snd (m w)) = files w.

(** A console that prints every line. *)
Definition prints_every_line (C : console) : Prop :=
  forall s, stdout_print C s = Ok tt.

(** A console that prints whatever it is given; exceptions carry no
    text. *)
Definition patient_console : console :=
  {| stdout_print := fun _ => Ok tt; exception_str := fun _ => [] |}.

(** * Properties *)

(** ** Words *)

Lemma lit_space : lit " " = [32].
Proof. reflexivity. Qed.

Example split_example :
  split (lit " a  bc d ") = [lit "a"; lit "bc"; lit "d"].
Proof. reflexivity. Qed.

Lemma split_space_cons (c : char) (s : pystr) :
  is_space c = true -> split (c :: s) = split s.
Proof. intros H. simpl. now rewrite H. Qed.

Lemma split_is_words (s : pystr) : Forall is_word (split s).
Proof.
  induction s as [|c s IH]; simpl; [constructor|].
  destruct (is_space c) eqn:Hc; [exact IH|].
  assert (Hw1 : is_word [c]).
  { split; [discriminate|]. simpl. now rewrite Hc. }
  destruct s as [|d s']; [repeat constructor; apply Hw1|].
  destruct (is_space d) eqn:Hd; [constructor; [apply Hw1|exact IH]|].
  destruct (split (d :: s')) as [|w ws]; [repeat constructor; apply Hw1|].
  inversion IH as [|? ? [Hne Hall] Hws]; subst.
  constructor; [|exact Hws].
  split; [discriminate|]. simpl. now rewrite Hc, Hall.
Qed.

Lemma split_one_word (w : pystr) : is_word w -> split w = [w].
Proof.
  induction w as [|c w IH]; intros [Hne Hall]; [congruence|].
  simpl in Hall. apply andb_true_iff in Hall as [Hc Hall].
  apply negb_true_iff in Hc. simpl. rewrite Hc.
  destruct w as [|d w']; [reflexivity|].
  assert (Hw : is_word (d :: w')) by (split; [discriminate|exact Hall]).
  simpl in Hall. apply andb_true_iff in Hall as [Hd _].
  apply negb_true_iff in Hd. rewrite Hd.
  now rewrite (IH Hw).
Qed.

Lemma split_word_then_space (w rest : pystr) :
  is_word w -> split (w ++ 32 :: rest) = w :: split rest.
Proof.
  induction w as [|c w IH]; intros [Hne Hall]; [congruence|].
  simpl in Hall. apply andb_true_iff in Hall as [Hc Hall].
  apply negb_true_iff in Hc.
  destruct w as [|d w'].
  - change (([c] ++ 32 :: rest)) with (c :: 32 :: rest).
    simpl. rewrite Hc. reflexivity.
  - assert (Hw : is_word (d :: w')) by (split; [discriminate|exact Hall]).
    simpl in Hall. apply andb_true_iff in Hall as [Hd _].
    apply negb_true_iff in Hd.
    change ((c :: d :: w') ++ 32 :: rest) with (c :: (d :: w') ++ 32 :: rest).
    change (split (c :: (d :: w') ++ 32 :: rest))
      with (if is_space c then split ((d :: w') ++ 32 :: rest)
            else if is_space d then [c] :: split ((d :: w') ++ 32 :: rest)
            else match split ((d :: w') ++ 32 :: rest) with
                 | w0 :: ws => (c :: w0) :: ws
                 | [] => [[c]]
                 end).
    rewrite Hc, Hd, (IH Hw). reflexivity.
Qed.

Lemma split_join_words (ws : list pystr) :
  Forall is_word ws -> split (join (lit " ") ws) = ws.
Proof.
  rewrite lit_space.
  induction ws as [|w ws IH]; intros Hall; [reflexivity|].
  inversion Hall as [|? ? Hw Hws]; subst.
  destruct ws as [|w2 ws]; [simpl; now apply split_one_word|].
  change (join [32] (w :: w2 :: ws)) with (w ++ 32 :: join [32] (w2 :: ws)).
  rewrite split_word_then_space by exact Hw.
  now rewrite (IH Hws).
Qed.

Lemma split_lstrip (s : pystr) : split (lstrip_by is_space s) = split s.
Proof.
  induction s as [|c s IH]; [reflexivity|].
  simpl lstrip_by. destruct (is_space c) eqn:Hc; [|reflexivity].
  now rewrite split_space_cons.
Qed.

Lemma rstrip_by_head (p : char -> bool) (c : char) (s : pystr) :
  rstrip_by p (c :: s) = [] \/ exists r, rstrip_by p (c :: s) = c :: r.
Proof.
  simpl. destruct (rstrip_by p s); [destruct (p c)|]; eauto.
Qed.

Lemma split_rstrip (s : pystr) : split (rstrip_by is_space s) = split s.
Proof.
  induction s as [|c s IH]; [reflexivity|].
  simpl rstrip_by.
  destruct (rstrip_by is_space s) as [|d r] eqn:Hr.
  - simpl in IH. destruct (is_space c) eqn:Hc.
    + rewrite split_space_cons by exact Hc. exact IH.
    + simpl. rewrite Hc, <- IH.
      destruct s as [|d s']; [reflexivity|].
      now destruct (is_space d).
  - destruct s as [|d' s']; [discriminate|].
    destruct (rstrip_by_head is_space d' s') as [H0|[r' Hr']];
      rewrite Hr in *; [discriminate|].
    injection Hr' as -> ->.
    change (split (c :: d' :: r'))
      with (if is_space c then split (d' :: r')
            else if is_space d' then [c] :: split (d' :: r')
            else match split (d' :: r') with
                 | w0 :: ws => (c :: w0) :: ws
                 | [] => [[c]]
                 end).
    change (split (c :: d' :: s'))
      with (if is_space c then split (d' :: s')
            else if is_space d' then [c] :: split (d' :: s')
            else match split (d' :: s') with
                 | w0 :: ws => (c :: w0) :: ws
                 | [] => [[c]]
                 end).
    now rewrite IH.
Qed.

Lemma split_strip (s : pystr) : split (strip s) = split s.
Proof. unfold strip. now rewrite split_lstrip, split_rstrip. Qed.

Lemma slice_to_length {A : Type} (n : Z) (l : list A) :
  (0 <= n)%Z -> length (slice_to n l) = Nat.min (Z.to_nat n) (length l).
Proof.
  intros Hn. unfold slice_to.
  destruct (Z.leb_spec 0 n) as [_|Hlt]; [|lia].
  apply length_take.
Qed.

Lemma slice_to_words (n : Z) (ws : list pystr) :
  Forall is_word ws -> Forall is_word (slice_to n ws).
Proof.
  intros H. unfold slice_to.
  destruct (0 <=? n)%Z; now apply Forall_take.
Qed.

(** ** Running monadic code *)

Ltac unfold_monad :=
  unfold try_except, bind, lift, ret, raise, log_call, any_exception in *.

(** Case analysis on the next collaborator result the goal inspects. *)
Ltac step_outcome :=
  match goal with
  | |- context [match ?o with Ok _ => _ | Raise _ => _ end] =>
    destruct o eqn:?; simpl
  | |- context [match ?o with (_, _) => _ end] =>
    destruct o eqn:?; simpl
  end.

(** ** The word limit of [generate_annotation] *)

Lemma limit_words_count (title : pystr) (max_words : Z) :
  (0 <= max_words)%Z ->
  (Z.of_nat (word_count (Main.limit_words title max_words)) <= max_words)%Z /\
  ((max_words < Z.of_nat (word_count title))%Z ->
   Z.of_nat (word_count (Main.limit_words title max_words)) = max_words).
Proof.
  intros Hmw. unfold Main.limit_words, word_count.
  rewrite split_strip.
  destruct (Z.ltb_spec max_words (Z.of_nat (length (split title)))) as [Hlt|Hge].
  - rewrite split_join_words by (apply slice_to_words, split_is_words).
    rewrite slice_to_length by exact Hmw. split; intros; lia.
  - split; intros; lia.
Qed.

Lemma generate_annotation_cases (E : env) (text : pystr) (max_words : Z)
    (mp : pystr) (w : world) :
  exists r w', Main.generate_annotation E text max_words mp w = (Ok r, w') /\
    (r = Main.NO_TEXT \/ r = Main.GENERATION_ERROR \/
     exists outputs decoded,
       tokenizer_decode E outputs = Ok decoded /\
       r = Main.limit_words (Main.cleaned_title decoded max_words) max_words).
Proof.
  unfold Main.generate_annotation.
  destruct (negb (truthy text) || (length (strip text) =? 0)%nat).
  { unfold ret. eauto. }
  unfold T5Tokenizer_from_pretrained, T5ForConditionalGeneration_from_pretrained,
    tokenizer, generate, decode_output.
  unfold_monad. simpl.
  repeat (step_outcome; eauto 8).
  do 2 eexists. split; [reflexivity|]. right. right. eauto.
Qed.

(** C1.  Whenever [generate_annotation] is called with [max_words >= 1] and
    returns something other than its two sentinels, the result is the
    cleaned-up decoded output cut by [limit_words]; it has at most
    [max_words] words, and exactly [max_words] when the cleaned title had
    more. *)
Theorem generate_annotation_word_limit (E : env) (text : pystr) (max_words : Z)
    (mp : pystr) (w w' : world) (r : pystr) :
  (1 <= max_words)%Z ->
  Main.generate_annotation E text max_words mp w = (Ok r, w') ->
  r <> Main.NO_TEXT ->
  r <> Main.GENERATION_ERROR ->
  exists outputs decoded,
    tokenizer_decode E outputs = Ok decoded /\
    r = Main.limit_words (Main.cleaned_title decoded max_words) max_words /\
    (Z.of_nat (word_count r) <= max_words)%Z /\
    ((max_words < Z.of_nat (word_count (Main.cleaned_title decoded max_words)))%Z ->
     Z.of_nat (word_count r) = max_words).
Proof.
  intros Hmw Hrun Hno Herr.
  destruct (generate_annotation_cases E text max_words mp w)
    as (r0 & w0 & Hrun0 & Hcases).
  rewrite Hrun in Hrun0. injection Hrun0 as <- <-.
  destruct Hcases as [?|[?|(outputs & decoded & Hdec & ->)]]; [congruence..|].
  exists outputs, decoded.
  destruct (limit_words_count (Main.cleaned_title decoded max_words) max_words)
    as [Hle Heq]; [lia|].
  auto.
Qed.

Lemma generate_annotation_word_limit_witness :
  exists outputs decoded,
    tokenizer_decode (sample_env (lit "one two three four five six")) outputs
      = Ok decoded /\
    lit "one two three" = Main.limit_words (Main.cleaned_title decoded 3) 3 /\
    (Z.of_nat (word_count (lit "one two three")) <= 3)%Z /\
    ((3 < Z.of_nat (word_count (Main.cleaned_title decoded 3)))%Z ->
     Z.of_nat (word_count (lit "one two three")) = 3%Z).
Proof.
  eapply (generate_annotation_word_limit
            (sample_env (lit "one two three four five six"))
            (lit "some document text") 3 Main.default_model_path (initial ∅)).
  - lia.
  - vm_compute. reflexivity.
  - intros H. vm_compute in H. discriminate H.
  - intros H. vm_compute in H. discriminate H.
Defined.

(** ** Blank input *)

Lemma rstrip_all (p : char -> bool) (s : pystr) :
  forallb p s = true -> rstrip_by p s = [].
Proof.
  induction s as [|c s IH]; [reflexivity|]. simpl.
  intros H. apply andb_true_iff in H as [Hc Hs].
  now rewrite (IH Hs), Hc.
Qed.

Lemma strip_blank (s : pystr) : forallb is_space s = true -> strip s = [].
Proof. intros H. unfold strip. now rewrite rstrip_all. Qed.

(** C3.  A text that is empty or all white space makes
    [generate_annotation] return the "no text" sentinel and leave the world
    as it was: no tokenizer or model is loaded and nothing is generated. *)
Theorem generate_annotation_blank (E : env) (text : pystr) (max_words : Z)
    (mp : pystr) (w : world) :
  forallb is_space text = true ->
  Main.generate_annotation E text max_words mp w = (Ok Main.NO_TEXT, w) /\
  calls (snd (Main.generate_annotation E text max_words mp w)) = calls w.
Proof.
  intros Hblank. unfold Main.generate_annotation.
  rewrite (strip_blank text Hblank). simpl.
  rewrite orb_true_r. split; reflexivity.
Qed.

Lemma generate_annotation_blank_witness :
  Main.generate_annotation (sample_env (lit "unused")) [32; 10; 9; 160] 35
    Main.default_model_path (initial ∅) = (Ok Main.NO_TEXT, initial ∅) /\
  calls (snd (Main.generate_annotation (sample_env (lit "unused"))
                [32; 10; 9; 160] 35 Main.default_model_path (initial ∅)))
    = calls (initial ∅).
Proof.
  apply (generate_annotation_blank (sample_env (lit "unused")) [32; 10; 9; 160]
           35 Main.default_model_path (initial ∅)).
  vm_compute. reflexivity.
Defined.

(** ** Generation parameters *)

(** C4.  The length ceiling and the length penalty follow the four tiers
    of [max_words], and they are what [generation_config] hands to the
    model; for 10 it produces a configuration with 40 and 1.2, for 40 one
    with 85 and 0.8. *)
Theorem tier_table (max_words : Z) :
  (((max_words <= 15)%Z /\ Main.tier max_words = (40%Z, 1.2%Q)) \/
   ((15 < max_words <= 25)%Z /\ Main.tier max_words = (55%Z, 1.0%Q)) \/
   ((25 < max_words <= 35)%Z /\ Main.tier max_words = (70%Z, 0.9%Q)) \/
   ((35 < max_words)%Z /\ Main.tier max_words = (85%Z, 0.8%Q))) /\
  (forall cfg, Main.generation_config max_words = Ok cfg ->
     (max_length cfg, length_penalty cfg) = Main.tier max_words) /\
  Main.tier 10 = (40%Z, 1.2%Q) /\
  Main.tier 40 = (85%Z, 0.8%Q) /\
  (exists cfg, Main.generation_config 10 = Ok cfg /\
     max_length cfg = 40%Z /\ length_penalty cfg = 1.2%Q) /\
  (exists cfg, Main.generation_config 40 = Ok cfg /\
     max_length cfg = 85%Z /\ length_penalty cfg = 0.8%Q).
Proof.
  split; [|split; [|split; [reflexivity|split; [reflexivity|split]]]].
  - unfold Main.tier.
    destruct (Z.leb_spec max_words 15); [left; split; [lia|reflexivity]|].
    destruct (Z.leb_spec max_words 25); [right; left; split; [lia|reflexivity]|].
    destruct (Z.leb_spec max_words 35);
      [right; right; left; split; [lia|reflexivity]|].
    right; right; right. split; [lia|reflexivity].
  - intros cfg. unfold Main.generation_config.
    destruct (int_times_0_3 max_words); [|discriminate].
    intros [= <-]. simpl. now destruct (Main.tier max_words).
  - eexists. split; [vm_compute; reflexivity|]. split; reflexivity.
  - eexists. split; [vm_compute; reflexivity|]. split; reflexivity.
Qed.

(** ** Sentence truncation *)

Lemma first_sentence_long_first (title : pystr) (max_words : Z) :
  (1 < length (split_on dot title))%nat ->
  (5 <= word_count (strip (nth 0 (split_on dot title) [])))%nat ->
  Main.first_sentence title max_words = strip (nth 0 (split_on dot title) []).
Proof.
  intros Hn Hw. unfold Main.first_sentence, word_count in *.
  destruct (Nat.ltb_spec 1 (length (split_on dot title))); [|lia].
  destruct (Nat.leb_spec 5 (length (split (strip (nth 0 (split_on dot title) [])))));
    [reflexivity|lia].
Qed.

(** C5, as the code has it.  The first fragment of the report has four
    words, fewer than five, so the step keeps the first two fragments,
    joined again by a period and a space (six words, within 25); a first
    fragment of five words is kept alone. *)
Theorem first_sentence_report :
  word_count (strip (nth 0 (split_on dot report) [])) = 4%nat /\
  Main.first_sentence report 25 = lit "Report on annual results.  Summary follows" /\
  Main.limit_words (Main.cleaned_title report 25) 25
    = lit "Report on annual results.  Summary follows" /\
  Main.first_sentence (lit "Report on the annual results. Summary follows.") 25
    = lit "Report on the annual results".
Proof. repeat split; vm_compute; reflexivity. Qed.

(** C5 as stated fails: the step does not keep only the first fragment. *)
Lemma first_sentence_report_not_first :
  Main.first_sentence report 25 <> lit "Report on annual results".
Proof. intros H. vm_compute in H. discriminate H. Qed.

(** ** The minimum length *)

Lemma holds_from_spec (p : Z -> bool) (n : nat) (z x : Z) :
  holds_from p z n = true ->
  (z <= x < z + Z.of_nat n)%Z ->
  p x = true /\ p (- x)%Z = true.
Proof.
  revert z. induction n as [|k IH]; intros z Hall Hx; [lia|].
  simpl in Hall.
  apply andb_true_iff in Hall as [Hz Hrest].
  apply andb_true_iff in Hz as [Hpos Hneg].
  destruct (Z.eq_dec x z) as [->|Hne]; [now split|].
  apply (IH (z + 1)%Z Hrest). lia.
Qed.

Lemma min_length_truncates_below_65536 :
  holds_from min_length_truncates 0 (Z.to_nat 65536) = true.
Proof. vm_compute. reflexivity. Qed.

(** C6, as the code has it.  [int(max_words * 0.3)] cuts the binary64
    product toward zero; for every [max_words] of magnitude below 65536 the
    minimum length handed to the model is [max(15, 3 * max_words quot 10)],
    the truncated three tenths and not the nearest integer. *)
Theorem min_length_is_truncation (max_words : Z) :
  (Z.abs max_words < 65536)%Z ->
  exists cfg, Main.generation_config max_words = Ok cfg /\
    min_length cfg = Z.max 15 (Z.quot (3 * max_words) 10).
Proof.
  intros Hrange.
  assert (Hok : min_length_truncates max_words = true).
  { destruct (holds_from_spec min_length_truncates (Z.to_nat 65536) 0
                (Z.abs max_words) min_length_truncates_below_65536) as [Hp Hn];
      [lia|].
    destruct (Z.abs_spec max_words) as [[_ Heq]|[_ Heq]]; rewrite Heq in *;
      [exact Hp|].
    now rewrite Z.opp_involutive in Hn. }
  unfold min_length_truncates in Hok.
  destruct (Main.generation_config max_words) as [cfg|]; [|discriminate].
  exists cfg. split; [reflexivity|]. now apply Z.eqb_eq.
Qed.

Lemma min_length_is_truncation_witness :
  exists cfg, Main.generation_config 56 = Ok cfg /\
    min_length cfg = Z.max 15 (Z.quot (3 * 56) 10).
Proof. apply (min_length_is_truncation 56). vm_compute. reflexivity. Defined.

(** C6 as stated fails: at [max_words = 56] the nearest integer to 16.8 is
    17, and the code passes 16. *)
Lemma min_length_not_rounded :
  ~ (forall max_words cfg r,
       Main.generation_config max_words = Ok cfg ->
       is_round_of_three_tenths max_words r ->
       min_length cfg = Z.max 15 r).
Proof.
  intros H.
  assert (Hcfg : exists cfg, Main.generation_config 56 = Ok cfg /\ min_length cfg = 16%Z).
  { eexists. split; vm_compute; reflexivity. }
  destruct Hcfg as (cfg & Hrun & Hmin).
  specialize (H 56%Z cfg 17%Z Hrun).
  rewrite Hmin in H.
  assert (Hr : is_round_of_three_tenths 56 17) by (unfold is_round_of_three_tenths; lia).
  specialize (H Hr). lia.
Qed.

(** ** Handlers that only return *)

Lemma try_except_any_returns {A : Type} (body : M A) (fallback : A) (w : world) :
  exists a w',
    try_except any_exception body (fun _ => ret fallback) w = (Ok a, w').
Proof.
  unfold try_except, any_exception, ret.
  destruct (body w) as [[a|e] w1]; eauto.
Qed.

Lemma pystr_eqb_neq (a b : pystr) : a <> b -> pystr_eqb a b = false.
Proof. intros H. unfold pystr_eqb. now apply bool_decide_eq_false. Qed.

(** ** Reading text files *)

Lemma universal_newlines_no_cr (s : pystr) :
  forallb (fun c => negb (c =? 13)) s = true -> universal_newlines s = s.
Proof.
  induction s as [|c s IH]; [reflexivity|]. simpl.
  intros H. apply andb_true_iff in H as [Hc Hs].
  apply negb_true_iff in Hc. rewrite Hc. now rewrite (IH Hs).
Qed.

(** C7.  A file whose bytes the [utf-8] codec rejects and the [cp1251]
    codec accepts is returned, by both versions of [extract_text_from_txt],
    as its cp1251 text read in text mode (line ends normalised, which
    changes nothing when the text has no carriage return). *)
Theorem extract_text_from_txt_cp1251 (w : world) (txt_path : pystr)
    (content : bytes) (text : pystr) :
  files w !! txt_path = Some content ->
  decode UTF8 false content = None ->
  decode CP1251 false content = Some text ->
  Extract.extract_text_from_txt txt_path w
    = (Ok (Some (universal_newlines text)), w) /\
  Main.extract_text_from_txt txt_path w
    = (Ok (Some (universal_newlines text)), w) /\
  (forallb (fun c => negb (c =? 13)) text = true ->
   universal_newlines text = text).
Proof.
  intros Hfile Hutf8 Hcp.
  assert (Hloop : forall rest,
    txt_encodings txt_path (UTF8 :: CP1251 :: rest) w
      = (Ok (Some (universal_newlines text)), w)).
  { intros rest. simpl. unfold try_except, bind, open_read, ret.
    rewrite Hfile, Hutf8. simpl. now rewrite Hfile, Hcp. }
  split; [|split; [|apply universal_newlines_no_cr]].
  - unfold Extract.extract_text_from_txt, extract_text_from_txt_with.
    unfold try_except at 1, bind at 1. now rewrite Hloop.
  - unfold Main.extract_text_from_txt, extract_text_from_txt_with.
    unfold try_except at 1, bind at 1. now rewrite Hloop.
Qed.

Lemma extract_text_from_txt_cp1251_witness :
  Extract.extract_text_from_txt (lit "notes.txt") (initial cyrillic_files)
    = (Ok (Some (universal_newlines (lit "Привет"))), initial cyrillic_files) /\
  Main.extract_text_from_txt (lit "notes.txt") (initial cyrillic_files)
    = (Ok (Some (universal_newlines (lit "Привет"))), initial cyrillic_files) /\
  (forallb (fun c => negb (c =? 13)) (lit "Привет") = true ->
   universal_newlines (lit "Привет") = lit "Привет").
Proof.
  apply (extract_text_from_txt_cp1251 (initial cyrillic_files) (lit "notes.txt")
           privet_cp1251 (lit "Привет")); vm_compute; reflexivity.
Defined.

(** ** Legacy DOC files *)

Lemma extract_text_from_doc_no_tools (E : env) (doc_path : pystr) (w : world) :
  antiword E = None ->
  libreoffice E = None ->
  fst (Extract.extract_text_from_doc E doc_path w) = Ok None.
Proof.
  intros Ha Hl.
  unfold Extract.extract_text_from_doc, Extract.doc_via_antiword,
    Extract.doc_via_libreoffice, run_antiword, run_libreoffice,
    NamedTemporaryFile.
  rewrite Ha, Hl. reflexivity.
Qed.

(** C9 at a failing input.  With antiword missing and LibreOffice
    installed, the report in [/data] is converted into the temporary
    directory, but the function looks for the text beside the document:
    it returns [None], and both the converted file and the temporary file
    stay behind. *)
Theorem extract_text_from_doc_misses_conversion :
  fst (Extract.extract_text_from_doc office_env (lit "/data/report.doc")
         (initial report_files)) = Ok None /\
  files (snd (Extract.extract_text_from_doc office_env (lit "/data/report.doc")
                (initial report_files))) !! lit "/tmp/report.txt"
    = Some converted /\
  files (snd (Extract.extract_text_from_doc office_env (lit "/data/report.doc")
                (initial report_files))) !! lit "/tmp/tmp0.txt"
    = Some [] /\
  calls (snd (Extract.extract_text_from_doc office_env (lit "/data/report.doc")
                (initial report_files)))
    = [RunLibreOffice (lit "/data/report.doc") (lit "/tmp")].
Proof. repeat split; vm_compute; reflexivity. Qed.

(** ** The batch *)

Lemma save_results_none (E : env) (output_file : option pystr) (w : world) :
  Extract.save_results E output_file [] w = (Ok tt, w).
Proof. unfold Extract.save_results. now destruct output_file. Qed.

(** With no result the batch ends in the world its loop left: the save
    step writes nothing. *)
Lemma process_folder_no_results (E : env) (folder_path : pystr)
    (output_file : option pystr) (all_files : list pystr) (w w0 w1 : world) :
  Extract.collect_files folder_path w = (Ok all_files, w0) ->
  Extract.process_files E all_files [] w0 = (Ok [], w1) ->
  Extract.process_folder E folder_path output_file w = (Ok [], w1).
Proof.
  intros Hscan Hloop. unfold Extract.process_folder, bind.
  now rewrite Hscan, Hloop, save_results_none.
Qed.

(** C10 at a failing input.  The folder holds [a.doc] and [a.txt], the
    output path is [d/a.txt], LibreOffice is installed and the model cannot
    be loaded: no title is produced and nothing is written, yet the file at
    the output path is gone, removed while [a.doc] was read. *)
Theorem process_folder_removes_output :
  files (initial folder_files) !! lit "d/a.txt"
    = Some (list_byte_of_string "old results") /\
  fst (Extract.process_folder office_env (lit "d") (Some (lit "d/a.txt"))
         (initial folder_files)) = Ok [] /\
  files (snd (Extract.process_folder office_env (lit "d") (Some (lit "d/a.txt"))
                (initial folder_files))) !! lit "d/a.txt" = None.
Proof. repeat split; vm_compute; reflexivity. Qed.

(** ** File names and the directory scan *)

Lemma starts_with_app (p s : pystr) :
  starts_with p s = true -> exists t, s = p ++ t.
Proof.
  revert s. induction p as [|a p IH]; intros s H; [now exists s|].
  destruct s as [|b s]; [discriminate|]. simpl in H.
  apply andb_true_iff in H as [Hab Hrest].
  apply N.eqb_eq in Hab as ->.
  destruct (IH s Hrest) as [t ->]. now exists t.
Qed.

Lemma ends_with_app (suf s : pystr) :
  ends_with suf s = true -> exists pre, s = pre ++ suf.
Proof.
  unfold ends_with. intros H.
  destruct (starts_with_app _ _ H) as [t Ht].
  exists (rev t).
  rewrite <- (rev_involutive s), Ht, rev_app_distr.
  now rewrite rev_involutive.
Qed.



(** Every listed name is the name of an existing file of the folder. *)
Lemma listdir_entry (folder name : pystr) (w : world) :
  name ∈ listdir folder w ->
  path_name (path_child folder name) = name /\
  is_Some (files w !! path_child folder name).
Proof.
  unfold listdir. intros H.
  apply list_elem_of_omap in H as (key & Hkey & Hentry).
  unfold entry_name in Hentry.
  destruct (truthy (path_name key) && bool_decide (path_child folder (path_name key) = key))
    eqn:Hok; [|discriminate].
  injection Hentry as <-.
  apply andb_true_iff in Hok as [_ Hchild].
  apply bool_decide_eq_true in Hchild. rewrite Hchild.
  split; [reflexivity|].
  apply list_elem_of_In, in_map_iff in Hkey as ([k v] & <- & Hkv).
  apply list_elem_of_In, elem_of_map_to_list in Hkv. simpl. eauto.
Qed.

Lemma last_app_nonempty (pre ext : pystr) (d : char) :
  ext <> [] -> List.last (pre ++ ext) d = List.last ext d.
Proof.
  intros Hne. induction pre as [|c pre IH]; [reflexivity|].
  simpl. destruct (pre ++ ext) eqn:Happ; [|exact IH].
  apply app_eq_nil in Happ as [_ ->]. congruence.
Qed.

Lemma ends_with_last (ext name : pystr) :
  ext <> [] -> ends_with ext name = true ->
  List.last name 0 = List.last ext 0.
Proof.
  intros Hne Hends. destruct (ends_with_app _ _ Hends) as [pre ->].
  now apply last_app_nonempty.
Qed.






Lemma pystr_eqb_refl (a : pystr) : pystr_eqb a a = true.
Proof. unfold pystr_eqb. now apply bool_decide_eq_true. Qed.


(** * Further properties *)

(** ** Stripping *)

Lemma lstrip_by_idem (p : char -> bool) (s : pystr) :
  lstrip_by p (lstrip_by p s) = lstrip_by p s.
Proof.
  induction s as [|c s IH]; [reflexivity|]. simpl.
  destruct (p c) eqn:Hc; [exact IH|]. simpl. now rewrite Hc.
Qed.

Lemma rstrip_by_idem (p : char -> bool) (s : pystr) :
  rstrip_by p (rstrip_by p s) = rstrip_by p s.
Proof.
  induction s as [|c s IH]; [reflexivity|]. simpl.
  destruct (rstrip_by p s) as [|d r] eqn:Hr.
  - destruct (p c) eqn:Hc; [reflexivity|]. simpl. now rewrite Hc.
  - change (rstrip_by p (c :: d :: r))
      with (match rstrip_by p (d :: r) with
            | [] => if p c then [] else [c]
            | r0 => c :: r0
            end).
    now rewrite IH.
Qed.

Lemma rstrip_lstrip (p : char -> bool) (s : pystr) :
  rstrip_by p s = s -> rstrip_by p (lstrip_by p s) = lstrip_by p s.
Proof.
  induction s as [|c s IH]; [reflexivity|]. intros Hs.
  simpl lstrip_by. destruct (p c) eqn:Hc; [|exact Hs].
  apply IH. simpl in Hs. rewrite Hc in Hs.
  destruct (rstrip_by p s); [discriminate|]. now injection Hs.
Qed.

Lemma strip_idem (s : pystr) : strip (strip s) = strip s.
Proof.
  unfold strip.
  rewrite (rstrip_lstrip is_space (rstrip_by is_space s)) by apply rstrip_by_idem.
  apply lstrip_by_idem.
Qed.

Lemma lstrip_by_elem (p : char -> bool) (c : char) (s : pystr) :
  c ∈ lstrip_by p s -> c ∈ s.
Proof.
  induction s as [|d s IH]; [easy|]. simpl.
  destruct (p d); [|easy]. intros H. right. now apply IH.
Qed.

Lemma rstrip_by_elem (p : char -> bool) (c : char) (s : pystr) :
  c ∈ rstrip_by p s -> c ∈ s.
Proof.
  induction s as [|d s IH]; [easy|]. simpl.
  destruct (rstrip_by p s) as [|e r].
  - destruct (p d); [easy|]. intros H. apply list_elem_of_singleton in H as ->. left.
  - intros H. apply elem_of_cons in H as [->|H]; [left|right; now apply IH].
Qed.

Lemma strip_elem (c : char) (s : pystr) : c ∈ strip s -> c ∈ s.
Proof. unfold strip. intros H. now apply lstrip_by_elem, rstrip_by_elem in H. Qed.

(** A stripped, non-empty string has a word. *)
Lemma split_stripped_nonempty (s : pystr) :
  s <> [] -> strip s = s -> split s <> [].
Proof.
  intros Hne Hs. destruct s as [|c s]; [congruence|].
  assert (Hc : is_space c = false).
  { destruct (is_space c) eqn:Hc; [|reflexivity].
    assert (Hl : lstrip_by is_space (c :: s) = c :: s).
    { rewrite <- Hs. unfold strip. apply lstrip_by_idem. }
    simpl in Hl. rewrite Hc in Hl.
    assert (Hlen : (length (lstrip_by is_space s) <= length s)%nat).
    { clear. induction s as [|d s IH]; simpl; [lia|]. destruct (is_space d); simpl; lia. }
    rewrite Hl in Hlen. simpl in Hlen. lia. }
  simpl. rewrite Hc.
  destruct s as [|d s']; [discriminate|].
  destruct (is_space d); [discriminate|].
  destruct (split (d :: s')); discriminate.
Qed.

Lemma extract_text_from_file_returns (E : env) (file_path : pystr) (w : world) :
  exists r w', Extract.extract_text_from_file E file_path w = (Ok r, w').
Proof. apply try_except_any_returns. Qed.

(** ** Characters of the pieces *)

Lemma split_on_head_no_sep (sep : char) (s : pystr) :
  sep ∉ nth 0 (split_on sep s) [].
Proof.
  induction s as [|c s IH]; simpl; [easy|].
  destruct (N.eqb_spec c sep) as [->|Hne]; simpl; [easy|].
  destruct (split_on sep s) as [|w ws]; simpl in *.
  - intros H. apply list_elem_of_singleton in H. congruence.
  - intros H. apply elem_of_cons in H as [->|H]; [congruence|easy].
Qed.

Lemma split_elem (s w : pystr) (c : char) :
  w ∈ split s -> c ∈ w -> c ∈ s.
Proof.
  revert w. induction s as [|d s IH]; intros w Hw Hc; simpl in Hw; [easy|].
  destruct (is_space d).
  { right. eapply IH; eassumption. }
  assert (Hone : w = [d] -> c ∈ d :: s).
  { intros ->. apply list_elem_of_singleton in Hc as ->. left. }
  destruct s as [|e s']; [apply list_elem_of_singleton in Hw; auto|].
  destruct (is_space e).
  { apply elem_of_cons in Hw as [Hw|Hw]; [auto|]. right. eapply IH; eassumption. }
  destruct (split (e :: s')) as [|w0 ws] eqn:Hsp;
    [apply list_elem_of_singleton in Hw; auto|].
  apply elem_of_cons in Hw as [->|Hw].
  - apply elem_of_cons in Hc as [->|Hc]; [left|right].
    apply (IH w0); [left|exact Hc].
  - right. apply (IH w); [right; exact Hw|exact Hc].
Qed.

Lemma join_elem (sep : pystr) (ws : list pystr) (c : char) :
  c ∈ join sep ws -> c ∈ sep \/ exists w, w ∈ ws /\ c ∈ w.
Proof.
  induction ws as [|w ws IH]; simpl; [easy|].
  destruct ws as [|w2 ws].
  - intros H. right. exists w. split; [left|exact H].
  - intros H. apply elem_of_app in H as [H|H]; [right; exists w; split; [left|exact H]|].
    apply elem_of_app in H as [H|H]; [now left|].
    destruct (IH H) as [?|(w' & Hw' & Hc)]; [now left|].
    right. exists w'. split; [right; exact Hw'|exact Hc].
Qed.

Lemma slice_to_elem {A : Type} (n : Z) (l : list A) (x : A) :
  x ∈ slice_to n l -> x ∈ l.
Proof.
  unfold slice_to. destruct (0 <=? n)%Z; intros H;
    apply list_elem_of_lookup in H as [i Hi];
    apply lookup_take_Some in Hi as [Hi _];
    apply list_elem_of_lookup; eauto.
Qed.

(** ** Titles of [generate_title_from_file] *)

Lemma clean_title_shape (decoded : pystr) :
  (word_count (Extract.clean_title decoded) <= 25)%nat /\
  (dot ∉ Extract.clean_title decoded) /\
  strip (Extract.clean_title decoded) = Extract.clean_title decoded.
Proof.
  unfold Extract.clean_title, word_count.
  set (t0 := strip (replace (lit "Заголовок:") []
                      (replace (lit "Заголовок документа:") [] decoded))).
  set (t1 := if existsb (N.eqb dot) t0
             then strip (nth 0 (split_on dot t0) []) else t0).
  assert (Hdot : dot ∉ t1).
  { unfold t1. destruct (existsb (N.eqb dot) t0) eqn:Hex.
    - intros H. apply strip_elem in H. now apply split_on_head_no_sep in H.
    - intros H. apply list_elem_of_In in H.
      assert (Ht : existsb (N.eqb dot) t0 = true)
        by (apply existsb_exists; exists dot; split; [exact H|apply N.eqb_refl]).
      congruence. }
  rewrite split_strip.
  destruct (Nat.ltb_spec 25 (length (split t1))) as [Hlt|Hge].
  - rewrite lit_space.
    split; [|split; [|apply strip_idem]].
    + rewrite <- lit_space.
      rewrite split_join_words by (apply slice_to_words, split_is_words).
      rewrite slice_to_length by lia. lia.
    + intros H. apply strip_elem, join_elem in H as [H|(w & Hw & Hc)].
      * apply list_elem_of_singleton in H. discriminate H.
      * apply slice_to_elem in Hw. apply Hdot. eapply split_elem; eassumption.
  - split; [exact Hge|split; [|apply strip_idem]].
    intros H. now apply strip_elem in H.
Qed.

(** A title that [generate_title_from_file] returns has at most 25 words,
    contains no period and has no white space at either end. *)
Theorem generate_title_from_file_title (E : env) (file_path : pystr)
    (w w' : world) (title : pystr) :
  Extract.generate_title_from_file E file_path w = (Ok (Some title), w') ->
  (word_count title <= 25)%nat /\ (dot ∉ title) /\ strip title = title.
Proof.
  unfold Extract.generate_title_from_file.
  destruct (extract_text_from_file_returns E file_path w) as (t & w1 & Ht).
  unfold bind at 1. rewrite Ht.
  destruct t as [text|]; [|unfold ret; discriminate].
  destruct (truthy text); simpl; [|unfold ret; discriminate].
  unfold T5Tokenizer_from_pretrained, T5ForConditionalGeneration_from_pretrained,
    model_to, tokenizer, generate, decode_output.
  unfold_monad. simpl.
  repeat (step_outcome; try discriminate).
  intros [= <- <-]. apply clean_title_shape.
Qed.

Lemma generate_title_from_file_title_witness :
  (word_count (lit "Annual meeting minutes") <= 25)%nat /\
  (dot ∉ lit "Annual meeting minutes") /\
  strip (lit "Annual meeting minutes") = lit "Annual meeting minutes".
Proof.
  apply (generate_title_from_file_title docs_env (lit "docs/notes.txt")
           (initial docs_files)
           (snd (Extract.generate_title_from_file docs_env (lit "docs/notes.txt")
                   (initial docs_files)))).
  vm_compute. reflexivity.
Defined.

(** ** [generate_annotation] from the outside *)

(** As [step_outcome], reducing only the match that was decided. *)
Ltac step_call :=
  match goal with
  | |- context [match ?o with Ok _ => _ | Raise _ => _ end] =>
    destruct o eqn:?; cbv beta iota
  | |- context [match ?o with (_, _) => _ end] =>
    destruct o eqn:?; cbv beta iota
  end.



(** The context taken from the text: for [max_words >= -50] it is the
    first [min(500 + 10 * max_words, 1000)] characters, so at most 1000;
    below that the slice bound is negative and counts from the end, so the
    context is the text without its last [-(500 + 10 * max_words)]
    characters, however long that is. *)
Theorem annotation_prompt_length (text : pystr) (max_words : Z) :
  ((-50 <= max_words)%Z ->
   length (annotation_prompt text max_words)
     = (21 + Nat.min (Z.to_nat (Z.min (500 + max_words * 10) 1000)) (length text))%nat /\
   (length (annotation_prompt text max_words) <= 1021)%nat) /\
  ((max_words < -50)%Z ->
   length (annotation_prompt text max_words)
     = (21 + (length text - Z.to_nat (- (500 + max_words * 10))))%nat).
Proof.
  unfold annotation_prompt. rewrite length_app.
  change (length (lit "Заголовок документа: ")) with 21%nat.
  split; intros Hmw.
  - rewrite slice_to_length by lia. split; lia.
  - unfold slice_to.
    destruct (Z.leb_spec 0 (Z.min (500 + max_words * 10) 1000)); [lia|].
    rewrite length_take. rewrite Z.min_l by lia. lia.
Qed.

(** ** Reading leaves the world alone *)

Lemma pdf_pages_world (pages : list (outcome (option pystr))) (acc : list pystr)
    (w : world) :
  snd (pdf_pages pages acc w) = w.
Proof.
  revert acc. induction pages as [|page pages IH]; intros acc; [reflexivity|].
  simpl. unfold bind, lift.
  destruct page as [[t|]|e]; [destruct (truthy t)|..]; auto.
Qed.

Lemma extract_text_from_pdf_world (E : env) (pdf_path : pystr) (w : world) :
  exists r, extract_text_from_pdf E pdf_path w = (Ok r, w).
Proof.
  unfold extract_text_from_pdf, pdfplumber_open_path, try_except, bind, ret,
    any_exception.
  destruct (files w !! pdf_path) as [bs|]; [|eauto].
  destruct (pdfplumber_open E bs) as [pages|e]; [|eauto].
  pose proof (pdf_pages_world pages [] w) as Hw.
  destruct (pdf_pages pages [] w) as [[parts|e] w1]; simpl in Hw; subst w1; eauto.
Qed.

Lemma txt_encodings_world (txt_path : pystr) (encodings : list encoding) (w : world) :
  snd (txt_encodings txt_path encodings w) = w.
Proof.
  induction encodings as [|enc rest IH]; [reflexivity|].
  simpl. unfold try_except, bind, open_read, ret.
  destruct (files w !! txt_path) as [bs|]; [|reflexivity].
  destruct (decode enc false bs); [reflexivity|exact IH].
Qed.

Lemma extract_text_from_txt_world (encodings : list encoding) (txt_path : pystr)
    (w : world) :
  exists r, extract_text_from_txt_with encodings txt_path w = (Ok r, w).
Proof.
  unfold extract_text_from_txt_with, try_except, bind, ret, any_exception.
  pose proof (txt_encodings_world txt_path encodings w) as Hw.
  destruct (txt_encodings txt_path encodings w) as [[[t|]|e] w1];
    simpl in Hw; subst w1; eauto.
  unfold open_read.
  destruct (files w !! txt_path) as [bs|]; [|eauto].
  destruct (decode UTF8 true bs); eauto.
Qed.


Lemma extract_docx_world (E : env) (docx_path : pystr) (w : world) :
  exists r, Extract.extract_text_from_docx E docx_path w = (Ok r, w).
Proof.
  unfold Extract.extract_text_from_docx, Document, try_except, bind, ret,
    any_exception.
  destruct (files w !! docx_path) as [bs|]; [|eauto].
  destruct (docx_Document E bs); eauto.
Qed.


(** In [extract.py] the same holds for every path that is not a [.doc]:
    only the legacy branch creates or removes files and runs programs. *)
Theorem extract_text_from_file_reads_only (E : env) (file_path : pystr)
    (w : world) :
  lower (path_suffix file_path) <> lit ".doc" ->
  exists r, Extract.extract_text_from_file E file_path w = (Ok r, w).
Proof.
  intros Hdoc. unfold Extract.extract_text_from_file. cbv zeta.
  destruct (pystr_eqb (lower (path_suffix file_path)) (lit ".pdf")).
  { destruct (extract_text_from_pdf_world E file_path w) as [r Hr].
    exists r. unfold try_except. now rewrite Hr. }
  destruct (pystr_eqb (lower (path_suffix file_path)) (lit ".docx")).
  { destruct (extract_docx_world E file_path w) as [r Hr].
    exists r. unfold try_except. now rewrite Hr. }
  rewrite (pystr_eqb_neq _ _ Hdoc).
  destruct (pystr_eqb (lower (path_suffix file_path)) (lit ".txt")).
  { destruct (extract_text_from_txt_world [UTF8; CP1251; KOI8R; ISO8859_1]
                file_path w) as [r Hr].
    exists r. unfold try_except, Extract.extract_text_from_txt. now rewrite Hr. }
  now exists None.
Qed.

Lemma extract_text_from_file_reads_only_witness :
  exists r,
    Extract.extract_text_from_file pdf_env (lit "in/paper.pdf") (initial office_files)
      = (Ok r, initial office_files).
Proof.
  apply (extract_text_from_file_reads_only pdf_env (lit "in/paper.pdf")
           (initial office_files)).
  intros H. vm_compute in H. discriminate H.
Defined.

(** ** PDF pages *)

Lemma pdf_pages_all_ok (texts : list (option pystr)) (acc : list pystr) (w : world) :
  pdf_pages (map Ok texts) acc w = (Ok (acc ++ pages_with_text texts), w).
Proof.
  revert acc. induction texts as [|t texts IH]; intros acc.
  - simpl. unfold ret. now rewrite app_nil_r.
  - simpl. unfold bind, lift.
    destruct t as [s|]; [destruct (truthy s) eqn:Hs|]; rewrite IH;
      unfold pages_with_text; simpl; rewrite ?Hs; [now rewrite <- app_assoc|..];
      reflexivity.
Qed.

Lemma pages_with_text_nonempty (texts : list (option pystr)) :
  Forall (fun s => s <> []) (pages_with_text texts).
Proof.
  induction texts as [|[s|] texts IH]; unfold pages_with_text; simpl;
    [constructor| |exact IH].
  destruct s as [|c s]; simpl; [exact IH|]. constructor; [discriminate|exact IH].
Qed.

Lemma pages_with_text_sublist (texts : list (option pystr)) :
  sublist (Some <$> pages_with_text texts) texts.
Proof.
  induction texts as [|[s|] texts IH]; unfold pages_with_text; simpl;
    [constructor| |now constructor].
  destruct s as [|c s]; simpl; [now constructor|]. now constructor.
Qed.

(** A PDF that opens and whose pages all parse yields the texts of the
    pages that have one, each non-empty, in page order, joined by blank
    lines; pages without text add nothing, and the world is unchanged. *)
Theorem extract_text_from_pdf_joins_pages (E : env) (pdf_path : pystr) (w : world)
    (content : bytes) (texts : list (option pystr)) :
  files w !! pdf_path = Some content ->
  pdfplumber_open E content = Ok (map Ok texts) ->
  extract_text_from_pdf E pdf_path w
    = (Ok (Some (join [newline; newline] (pages_with_text texts))), w) /\
  Forall (fun s => s <> []) (pages_with_text texts) /\
  sublist (Some <$> pages_with_text texts) texts.
Proof.
  intros Hfile Hopen.
  split; [|split; [apply pages_with_text_nonempty|apply pages_with_text_sublist]].
  unfold extract_text_from_pdf, pdfplumber_open_path, try_except, bind, ret.
  now rewrite Hfile, Hopen, pdf_pages_all_ok.
Qed.

Lemma extract_text_from_pdf_joins_pages_witness :
  extract_text_from_pdf pdf_env (lit "in/paper.pdf") (initial office_files)
    = (Ok (Some (join [newline; newline] (pages_with_text three_pages))),
       initial office_files) /\
  Forall (fun s => s <> []) (pages_with_text three_pages) /\
  sublist (Some <$> pages_with_text three_pages) three_pages.
Proof.
  apply (extract_text_from_pdf_joins_pages pdf_env (lit "in/paper.pdf")
           (initial office_files) (list_byte_of_string "%PDF") three_pages);
    vm_compute; reflexivity.
Defined.

Lemma pdf_pages_raise (pages : list (outcome (option pystr))) (acc : list pystr)
    (w : world) :
  (exists e, Raise e ∈ pages) -> exists e, pdf_pages pages acc w = (Raise e, w).
Proof.
  revert acc. induction pages as [|page pages IH]; intros acc [e He]; [easy|].
  simpl. unfold bind, lift.
  destruct page as [[t|]|e0]; [destruct (truthy t)|..]; try (now eexists);
    apply IH; exists e; apply elem_of_cons in He as [He|He];
    first [discriminate He | exact He].
Qed.

(** One page that fails to parse discards the whole document: the result
    is [None], not the text of the other pages. *)
Theorem extract_text_from_pdf_bad_page (E : env) (pdf_path : pystr) (w : world)
    (content : bytes) (pages : list (outcome (option pystr))) (e : exn) :
  files w !! pdf_path = Some content ->
  pdfplumber_open E content = Ok pages ->
  Raise e ∈ pages ->
  extract_text_from_pdf E pdf_path w = (Ok None, w).
Proof.
  intros Hfile Hopen Hbad.
  unfold extract_text_from_pdf, pdfplumber_open_path, try_except, bind, ret.
  rewrite Hfile, Hopen.
  destruct (pdf_pages_raise pages [] w) as [e' ->]; [now exists e|reflexivity].
Qed.

Lemma extract_text_from_pdf_bad_page_witness :
  extract_text_from_pdf broken_page_env (lit "in/paper.pdf") (initial office_files)
    = (Ok None, initial office_files).
Proof.
  apply (extract_text_from_pdf_bad_page broken_page_env (lit "in/paper.pdf")
           (initial office_files) (list_byte_of_string "%PDF")
           [Ok (Some (lit "First page")); Raise (LibraryError 7)] (LibraryError 7)).
  - vm_compute. reflexivity.
  - reflexivity.
  - right. left.
Defined.

(** A PDF without any text layer (a scan) is not an error for the
    extractor, which returns the empty string; [generate_title_from_file]
    then gives [None] without loading the tokenizer or the model. *)
Theorem scanned_pdf_no_title (E : env) (file_path : pystr) (w : world)
    (content : bytes) (texts : list (option pystr)) :
  lower (path_suffix file_path) = lit ".pdf" ->
  files w !! file_path = Some content ->
  pdfplumber_open E content = Ok (map Ok texts) ->
  pages_with_text texts = [] ->
  extract_text_from_pdf E file_path w = (Ok (Some []), w) /\
  Extract.generate_title_from_file E file_path w = (Ok None, w).
Proof.
  intros Hext Hfile Hopen Hnone.
  assert (Hpdf : extract_text_from_pdf E file_path w = (Ok (Some []), w)).
  { unfold extract_text_from_pdf, pdfplumber_open_path, try_except, bind, ret.
    now rewrite Hfile, Hopen, pdf_pages_all_ok, Hnone. }
  split; [exact Hpdf|].
  unfold Extract.generate_title_from_file, Extract.extract_text_from_file.
  cbv zeta. rewrite Hext, pystr_eqb_refl.
  unfold bind, try_except. now rewrite Hpdf.
Qed.

Lemma scanned_pdf_no_title_witness :
  extract_text_from_pdf scan_env (lit "in/paper.pdf") (initial office_files)
    = (Ok (Some []), initial office_files) /\
  Extract.generate_title_from_file scan_env (lit "in/paper.pdf") (initial office_files)
    = (Ok None, initial office_files).
Proof.
  apply (scanned_pdf_no_title scan_env (lit "in/paper.pdf") (initial office_files)
           (list_byte_of_string "%PDF") [None; Some []]);
    vm_compute; reflexivity.
Defined.

(** ** Text files always decode *)

Lemma koi8r_char_total (b : byte) : is_Some (koi8r_char (Byte.to_N b)).
Proof. destruct b; vm_compute; eauto. Qed.

Lemma decode_bytewise_total (f : N -> option char) (bs : bytes) :
  (forall b, is_Some (f (Byte.to_N b))) ->
  is_Some (decode_bytewise f false bs).
Proof.
  intros Hf. induction bs as [|b bs [t Ht]]; simpl; [eauto|].
  destruct (Hf b) as [c ->]. rewrite Ht. simpl. eauto.
Qed.

Lemma txt_encodings_some (txt_path : pystr) (encodings : list encoding) (w : world)
    (content : bytes) :
  files w !! txt_path = Some content ->
  (exists enc, enc ∈ encodings /\ is_Some (decode enc false content)) ->
  exists t, txt_encodings txt_path encodings w = (Ok (Some t), w).
Proof.
  intros Hfile. induction encodings as [|enc0 rest IH]; intros (enc & Hin & Hdec).
  - easy.
  - simpl. unfold try_except, bind, open_read, ret. rewrite Hfile.
    destruct (decode enc0 false content) as [t|] eqn:H0; [eauto|].
    cbn [is_UnicodeDecodeError]. apply IH. exists enc. split; [|exact Hdec].
    apply elem_of_cons in Hin as [->|Hin]; [|exact Hin].
    rewrite H0 in Hdec. now destruct Hdec.
Qed.

(** [extract_text_from_txt], in both files, fails only for a file that
    cannot be opened: a missing file gives [None], and every file that
    exists gives a string, because the last encoding of each list accepts
    every byte string (the lossy read is never reached). *)
Theorem extract_text_from_txt_total (txt_path : pystr) (w : world) :
  (files w !! txt_path = None ->
   Extract.extract_text_from_txt txt_path w = (Ok None, w) /\
   Main.extract_text_from_txt txt_path w = (Ok None, w)) /\
  (forall content, files w !! txt_path = Some content ->
   (exists t, Extract.extract_text_from_txt txt_path w = (Ok (Some t), w)) /\
   (exists t, Main.extract_text_from_txt txt_path w = (Ok (Some t), w))).
Proof.
  split.
  - intros Hnone.
    unfold Extract.extract_text_from_txt, Main.extract_text_from_txt,
      extract_text_from_txt_with.
    cbn [txt_encodings]. unfold try_except, bind, open_read, ret.
    now rewrite Hnone.
  - intros content Hfile. split.
    + destruct (txt_encodings_some txt_path [UTF8; CP1251; KOI8R; ISO8859_1] w
                  content Hfile) as [t Ht].
      { exists ISO8859_1. split; [set_solver|].
        apply decode_bytewise_total. eauto. }
      exists t. unfold Extract.extract_text_from_txt, extract_text_from_txt_with.
      unfold try_except at 1, bind at 1. now rewrite Ht.
    + destruct (txt_encodings_some txt_path [UTF8; CP1251; KOI8R] w
                  content Hfile) as [t Ht].
      { exists KOI8R. split; [set_solver|].
        apply decode_bytewise_total, koi8r_char_total. }
      exists t. unfold Main.extract_text_from_txt, extract_text_from_txt_with.
      unfold try_except at 1, bind at 1. now rewrite Ht.
Qed.

(** A file that is valid UTF-8 is read as UTF-8, the first encoding of both
    lists, whatever the later ones would make of it. *)
Theorem extract_text_from_txt_utf8_first (w : world) (txt_path : pystr)
    (content : bytes) (text : pystr) :
  files w !! txt_path = Some content ->
  decode UTF8 false content = Some text ->
  Extract.extract_text_from_txt txt_path w
    = (Ok (Some (universal_newlines text)), w) /\
  Main.extract_text_from_txt txt_path w
    = (Ok (Some (universal_newlines text)), w).
Proof.
  intros Hfile Hutf8.
  assert (Hloop : forall rest,
    txt_encodings txt_path (UTF8 :: rest) w
      = (Ok (Some (universal_newlines text)), w)).
  { intros rest. simpl. unfold try_except, bind, open_read, ret.
    now rewrite Hfile, Hutf8. }
  split.
  - unfold Extract.extract_text_from_txt, extract_text_from_txt_with.
    unfold try_except at 1, bind at 1. now rewrite Hloop.
  - unfold Main.extract_text_from_txt, extract_text_from_txt_with.
    unfold try_except at 1, bind at 1. now rewrite Hloop.
Qed.

Lemma extract_text_from_txt_utf8_first_witness :
  Extract.extract_text_from_txt (lit "notes.txt") (initial utf8_files)
    = (Ok (Some (universal_newlines (lit "Привет, мир"))), initial utf8_files) /\
  Main.extract_text_from_txt (lit "notes.txt") (initial utf8_files)
    = (Ok (Some (universal_newlines (lit "Привет, мир"))), initial utf8_files).
Proof.
  apply (extract_text_from_txt_utf8_first (initial utf8_files) (lit "notes.txt")
           (list_byte_of_string "Привет, мир") (lit "Привет, мир"));
    vm_compute; reflexivity.
Defined.

(** ** Word documents *)

(** For a document whose table cells are all blank, the two versions of
    [extract_text_from_docx] agree: both give the non-blank paragraphs, in
    order, joined by blank lines. *)
Theorem extract_text_from_docx_versions_agree (E : env) (docx_path : pystr)
    (w : world) (content : bytes) (doc : docx_document) :
  files w !! docx_path = Some content ->
  docx_Document E content = Ok doc ->
  Forall (fun cell => strip cell = []) (concat (concat (tables doc))) ->
  Extract.extract_text_from_docx E docx_path w
    = Main.extract_text_from_docx E docx_path w /\
  Main.extract_text_from_docx E docx_path w
    = (Ok (Some (join [newline; newline]
                   (List.filter (fun t => truthy (strip t)) (paragraphs doc)))), w).
Proof.
  intros Hfile Hdoc Hcells.
  assert (Hnone : List.filter (fun t => truthy (strip t))
                    (concat (concat (tables doc))) = []).
  { induction Hcells as [|cell cells Hc _ IH]; [reflexivity|].
    simpl. now rewrite Hc, IH. }
  unfold Extract.extract_text_from_docx, Main.extract_text_from_docx, Document,
    try_except, bind, ret.
  rewrite Hfile, Hdoc. cbv beta iota zeta. rewrite Hnone, app_nil_r. split; reflexivity.
Qed.

Lemma extract_text_from_docx_versions_agree_witness :
  Extract.extract_text_from_docx hello_env (lit "in/letter.docx") (initial office_files)
    = Main.extract_text_from_docx hello_env (lit "in/letter.docx")
        (initial office_files) /\
  Main.extract_text_from_docx hello_env (lit "in/letter.docx") (initial office_files)
    = (Ok (Some (join [newline; newline]
                   (List.filter (fun t => truthy (strip t)) (paragraphs hello_docx)))),
       initial office_files).
Proof.
  apply (extract_text_from_docx_versions_agree hello_env (lit "in/letter.docx")
           (initial office_files) (list_byte_of_string "PK") hello_docx).
  - vm_compute. reflexivity.
  - reflexivity.
  - repeat constructor.
Defined.

(** A document with no visible text (every paragraph and every cell blank)
    gives the empty string, and [generate_title_from_file] answers [None]
    without loading the tokenizer or the model. *)
Theorem blank_docx_no_title (E : env) (file_path : pystr) (w : world)
    (content : bytes) (doc : docx_document) :
  lower (path_suffix file_path) = lit ".docx" ->
  files w !! file_path = Some content ->
  docx_Document E content = Ok doc ->
  Forall (fun t => strip t = []) (paragraphs doc) ->
  Forall (fun cell => strip cell = []) (concat (concat (tables doc))) ->
  Extract.extract_text_from_docx E file_path w = (Ok (Some []), w) /\
  Extract.generate_title_from_file E file_path w = (Ok None, w).
Proof.
  intros Hext Hfile Hdoc Hpars Hcells.
  assert (Hfilter : forall l, Forall (fun t => strip t = []) l ->
            List.filter (fun t => truthy (strip t)) l = []).
  { intros l Hl. induction Hl as [|t l Ht _ IH]; [reflexivity|].
    simpl. now rewrite Ht, IH. }
  assert (Hdocx : Extract.extract_text_from_docx E file_path w = (Ok (Some []), w)).
  { unfold Extract.extract_text_from_docx, Document, try_except, bind, ret.
    rewrite Hfile, Hdoc. cbv beta iota zeta.
    now rewrite (Hfilter _ Hpars), (Hfilter _ Hcells). }
  split; [exact Hdocx|].
  unfold Extract.generate_title_from_file, Extract.extract_text_from_file.
  cbv zeta. rewrite Hext.
  rewrite pystr_eqb_neq by (intros H; vm_compute in H; discriminate H).
  rewrite pystr_eqb_refl.
  unfold bind, try_except. now rewrite Hdocx.
Qed.

Lemma blank_docx_no_title_witness :
  Extract.extract_text_from_docx blank_env (lit "in/letter.docx") (initial office_files)
    = (Ok (Some []), initial office_files) /\
  Extract.generate_title_from_file blank_env (lit "in/letter.docx")
    (initial office_files) = (Ok None, initial office_files).
Proof.
  apply (blank_docx_no_title blank_env (lit "in/letter.docx") (initial office_files)
           (list_byte_of_string "PK") blank_docx).
  - vm_compute. reflexivity.
  - vm_compute. reflexivity.
  - reflexivity.
  - repeat constructor.
  - repeat constructor.
Defined.

(** ** The lossy UTF-8 reader *)

Lemma utf8_ignore_total_upto (n : nat) (bs : bytes) :
  (length bs <= n)%nat -> is_Some (utf8_decode true bs).
Proof.
  revert bs. induction n as [|n IH]; intros bs Hlen.
  { destruct bs; [simpl; eauto|simpl in Hlen; lia]. }
  destruct bs as [|b1 r1]; [simpl; eauto|].
  unfold utf8_decode; fold utf8_decode. cbv zeta.
  repeat match goal with
         | |- is_Some (if ?c then _ else _) => destruct c
         | |- is_Some (match ?l with [] => _ | _ :: _ => _ end) => destruct l
         | |- is_Some (Some _) => eauto
         | |- is_Some (_ <$> _) => apply fmap_is_Some
         | |- is_Some (utf8_decode true _) => apply IH; simpl in Hlen |- *; lia
         end.
Qed.

(** [errors='ignore'] never fails. *)
Lemma utf8_ignore_total (bs : bytes) : is_Some (utf8_decode true bs).
Proof. now apply (utf8_ignore_total_upto (length bs)). Qed.

(** ** Legacy DOC files, case by case *)

(** When antiword is installed and exits with code 0, its output is the
    result; nothing else happens: no temporary file, no LibreOffice run,
    the files as before. *)
Theorem extract_text_from_doc_antiword (E : env) (doc_path : pystr) (w : world)
    (prog : option bytes -> outcome (Z * pystr)) (out : pystr) :
  antiword E = Some prog ->
  prog (files w !! doc_path) = Ok (0%Z, out) ->
  Extract.extract_text_from_doc E doc_path w
    = (Ok (Some out),
       {| files := files w; calls := calls w ++ [RunAntiword doc_path];
          temps := temps w; ticks := ticks w |}).
Proof.
  intros Haw Hrun.
  unfold Extract.extract_text_from_doc, Extract.doc_via_antiword, run_antiword.
  rewrite Haw. unfold_monad. cbn [files]. now rewrite Hrun.
Qed.

Lemma extract_text_from_doc_antiword_witness :
  Extract.extract_text_from_doc antiword_env (lit "/data/report.doc")
    (initial report_files)
    = (Ok (Some (lit "text from antiword")),
       {| files := files (initial report_files);
          calls := calls (initial report_files) ++ [RunAntiword (lit "/data/report.doc")];
          temps := temps (initial report_files);
          ticks := ticks (initial report_files) |}).
Proof.
  apply (extract_text_from_doc_antiword antiword_env (lit "/data/report.doc")
           (initial report_files) (fun _ => Ok (0%Z, lit "text from antiword"))
           (lit "text from antiword")); reflexivity.
Defined.



Lemma run_libreoffice_frame (E : env) (doc_path outdir p : pystr) (w : world)
    (convert : bytes -> option bytes) :
  libreoffice E = Some convert ->
  p <> path_child outdir (name_stem (path_name doc_path) ++ lit ".txt") ->
  exists w',
    run_libreoffice E doc_path outdir w = (Ok tt, w') /\
    files w' !! p = files w !! p.
Proof.
  intros Hlo Hp. unfold run_libreoffice. rewrite Hlo. unfold_monad. cbn [files].
  destruct (files w !! doc_path) as [doc|]; [|eauto].
  destruct (convert doc) as [txt|]; [|eauto].
  eexists. split; [reflexivity|]. cbn [set_files files].
  now rewrite lookup_insert_ne.
Qed.

(** With antiword missing and LibreOffice installed, whatever file sits at
    [doc_path.replace('.doc', '.txt')] (other than the temporary file and
    the converter's output) is taken for the conversion: its lossily
    decoded content is the result, and the file is removed. *)
Theorem extract_text_from_doc_takes_sibling (E : env) (doc_path : pystr) (w : world)
    (convert : bytes -> option bytes) (sibling : bytes) :
  antiword E = None ->
  libreoffice E = Some convert ->
  files w !! doc_txt_file doc_path = Some sibling ->
  doc_txt_file doc_path <> doc_tmp_path E w ->
  doc_txt_file doc_path <> doc_converted_path E w doc_path ->
  exists text w',
    utf8_decode true sibling = Some text /\
    Extract.extract_text_from_doc E doc_path w
      = (Ok (Some (universal_newlines text)), w') /\
    files w' !! doc_txt_file doc_path = None.
Proof.
  intros Haw Hlo Hsib Htmp Hconv.
  destruct (utf8_ignore_total sibling) as [text Htext].
  set (w1 := {| files := <[doc_tmp_path E w := []]> (files w); calls := calls w;
                temps := S (temps w); ticks := ticks w |}).
  destruct (run_libreoffice_frame E doc_path (dirname (doc_tmp_path E w))
              (doc_txt_file doc_path) w1 convert Hlo Hconv) as (w2 & Hrun & Hsame).
  assert (Hthere : files w2 !! doc_txt_file doc_path = Some sibling).
  { rewrite Hsame. unfold w1. cbn [files]. now rewrite lookup_insert_ne. }
  exists text, (set_files (delete (doc_txt_file doc_path) (files w2)) w2).
  split; [exact Htext|]. split.
  - unfold Extract.extract_text_from_doc, Extract.doc_via_antiword,
      Extract.doc_via_libreoffice, run_antiword, NamedTemporaryFile.
    rewrite Haw. fold (doc_txt_file doc_path).
    unfold try_except, bind, raise, ret, any_exception, is_FileNotFoundError.
    cbv beta iota. fold (doc_tmp_path E w).
    change {| files := <[doc_tmp_path E w := []]> (files w); calls := calls w;
              temps := S (temps w); ticks := ticks w |} with w1.
    rewrite Hrun. cbv beta iota.
    unfold path_exists, open_read, os_remove, decode. rewrite Hthere.
    rewrite bool_decide_eq_true_2 by eauto. cbn [orb]. cbv beta iota.
    rewrite Hthere, Htext. cbv beta iota. now rewrite Hthere.
  - cbn [set_files files]. apply lookup_delete_eq.
Qed.

Lemma extract_text_from_doc_takes_sibling_witness :
  exists text w',
    utf8_decode true (list_byte_of_string "old results") = Some text /\
    Extract.extract_text_from_doc office_env (lit "d/a.doc") (initial folder_files)
      = (Ok (Some (universal_newlines text)), w') /\
    files w' !! doc_txt_file (lit "d/a.doc") = None.
Proof.
  apply (extract_text_from_doc_takes_sibling office_env (lit "d/a.doc")
           (initial folder_files) (fun _ => Some converted)
           (list_byte_of_string "old results")).
  - reflexivity.
  - reflexivity.
  - vm_compute. reflexivity.
  - intros H. vm_compute in H. discriminate H.
  - intros H. vm_compute in H. discriminate H.
Defined.

(** The fallback does what it is meant to exactly when the converter's
    output lands where the function looks, that is when the document lies
    in the temporary directory: then the converted text is the result and
    the converted file is removed, while the temporary file stays. *)
Theorem extract_text_from_doc_in_tempdir (E : env) (doc_path : pystr) (w : world)
    (convert : bytes -> option bytes) (doc txt : bytes) :
  antiword E = None ->
  libreoffice E = Some convert ->
  files w !! doc_path = Some doc ->
  convert doc = Some txt ->
  doc_path <> doc_tmp_path E w ->
  doc_converted_path E w doc_path = doc_txt_file doc_path ->
  doc_txt_file doc_path <> doc_tmp_path E w ->
  exists text w',
    utf8_decode true txt = Some text /\
    Extract.extract_text_from_doc E doc_path w
      = (Ok (Some (universal_newlines text)), w') /\
    files w' !! doc_txt_file doc_path = None /\
    files w' !! doc_tmp_path E w = Some [].
Proof.
  intros Haw Hlo Hdoc Hconv Hne Hsame Htmp.
  destruct (utf8_ignore_total txt) as [text Htext].
  set (w1 := {| files := <[doc_tmp_path E w := []]> (files w); calls := calls w;
                temps := S (temps w); ticks := ticks w |}).
  set (w2 := {| files := files w1;
                calls := calls w1 ++ [RunLibreOffice doc_path (dirname (doc_tmp_path E w))];
                temps := temps w1; ticks := ticks w1 |}).
  set (w3 := set_files (<[doc_txt_file doc_path := txt]> (files w2)) w2).
  assert (Hrun : run_libreoffice E doc_path (dirname (doc_tmp_path E w)) w1
                 = (Ok tt, w3)).
  { unfold w3, w2, w1, run_libreoffice. rewrite Hlo. unfold_monad.
    cbn [files calls temps ticks set_files].
    rewrite lookup_insert_ne by congruence. rewrite Hdoc, Hconv.
    fold (doc_converted_path E w doc_path). now rewrite Hsame. }
  exists text, (set_files (delete (doc_txt_file doc_path) (files w3)) w3).
  split; [exact Htext|]. split; [|split].
  - unfold Extract.extract_text_from_doc, Extract.doc_via_antiword,
      Extract.doc_via_libreoffice, run_antiword, NamedTemporaryFile.
    rewrite Haw. fold (doc_txt_file doc_path).
    unfold try_except, bind, raise, ret, any_exception, is_FileNotFoundError.
    cbv beta iota. fold (doc_tmp_path E w).
    change {| files := <[doc_tmp_path E w := []]> (files w); calls := calls w;
              temps := S (temps w); ticks := ticks w |} with w1.
    rewrite Hrun. cbv beta iota.
    unfold path_exists, open_read, os_remove.
    assert (Hthere : files w3 !! doc_txt_file doc_path = Some txt)
      by (unfold w3; cbn [set_files files]; apply lookup_insert_eq).
    unfold decode. rewrite Hthere.
    rewrite bool_decide_eq_true_2 by eauto. cbn [orb]. cbv beta iota.
    rewrite Hthere, Htext. cbv beta iota. now rewrite Hthere.
  - cbn [set_files files]. apply lookup_delete_eq.
  - unfold w3, w2, w1. cbn [set_files files].
    rewrite lookup_delete_ne by congruence.
    rewrite lookup_insert_ne by congruence.
    apply lookup_insert_eq.
Qed.

Lemma extract_text_from_doc_in_tempdir_witness :
  exists text w',
    utf8_decode true converted = Some text /\
    Extract.extract_text_from_doc office_env (lit "/tmp/report.doc") (initial tmp_files)
      = (Ok (Some (universal_newlines text)), w') /\
    files w' !! doc_txt_file (lit "/tmp/report.doc") = None /\
    files w' !! doc_tmp_path office_env (initial tmp_files) = Some [].
Proof.
  apply (extract_text_from_doc_in_tempdir office_env (lit "/tmp/report.doc")
           (initial tmp_files) (fun _ => Some converted)
           (list_byte_of_string "DOC") converted).
  - reflexivity.
  - reflexivity.
  - vm_compute. reflexivity.
  - reflexivity.
  - intros H. vm_compute in H. discriminate H.
  - vm_compute. reflexivity.
  - intros H. vm_compute in H. discriminate H.
Defined.

(** ** Generation parameters over the whole range *)

Lemma generation_config_in_range (max_words : Z) :
  (Z.abs max_words < 65536)%Z ->
  exists cfg, Main.generation_config max_words = Ok cfg /\
    min_length cfg = Z.max 15 (Z.quot (3 * max_words) 10) /\
    max_length cfg = fst (Main.tier max_words).
Proof.
  intros Hrange.
  assert (Hok : min_length_truncates max_words = true).
  { destruct (holds_from_spec min_length_truncates (Z.to_nat 65536) 0
                (Z.abs max_words) min_length_truncates_below_65536) as [Hp Hn];
      [lia|].
    destruct (Z.abs_spec max_words) as [[_ Heq]|[_ Heq]]; rewrite Heq in *;
      [exact Hp|].
    now rewrite Z.opp_involutive in Hn. }
  unfold min_length_truncates in Hok.
  destruct (Main.generation_config max_words) as [cfg|] eqn:Hcfg; [|discriminate].
  exists cfg. split; [reflexivity|]. split; [now apply Z.eqb_eq|].
  revert Hcfg. unfold Main.generation_config.
  destruct (int_times_0_3 max_words); [|discriminate]. now intros [= <-].
Qed.

Lemma three_tenths_quot (n : Z) :
  ((0 <= n -> Z.quot (3 * n) 10 = 3 * n / 10) /\
   (n <= 0 -> Z.quot (3 * n) 10 <= 0))%Z.
Proof.
  split; intros Hn.
  - apply Z.quot_div_nonneg; lia.
  - rewrite <- (Z.opp_involutive (3 * n)), Z.quot_opp_l by lia.
    rewrite Z.quot_div_nonneg by lia.
    assert (0 <= - (3 * n) / 10)%Z by (apply Z.div_pos; lia). lia.
Qed.

(** The minimum length fits under the length ceiling exactly up to
    [max_words = 286]: from 287 on (three tenths of it is 86 and more) the
    model is asked for a minimum above the maximum of 85. *)
Theorem generation_config_min_below_max (max_words : Z) :
  (Z.abs max_words < 65536)%Z ->
  exists cfg, Main.generation_config max_words = Ok cfg /\
    ((min_length cfg <= max_length cfg)%Z <-> (max_words <= 286)%Z).
Proof.
  intros Hrange.
  destruct (generation_config_in_range max_words Hrange) as (cfg & Hcfg & Hmin & Hmax).
  exists cfg. split; [exact Hcfg|]. rewrite Hmin, Hmax.
  destruct (three_tenths_quot max_words) as [Hpos Hneg].
  unfold Main.tier.
  destruct (Z.leb_spec max_words 15); [|destruct (Z.leb_spec max_words 25);
    [|destruct (Z.leb_spec max_words 35)]]; cbn [fst].
  - destruct (Z.le_ge_cases 0 max_words) as [H0|H0].
    + rewrite (Hpos H0).
      assert (3 * max_words / 10 < 5)%Z by (apply Z.div_lt_upper_bound; lia).
      split; intros; lia.
    + specialize (Hneg H0). split; intros; lia.
  - rewrite Hpos by lia.
    assert (3 * max_words / 10 < 8)%Z by (apply Z.div_lt_upper_bound; lia).
    split; intros; lia.
  - rewrite Hpos by lia.
    assert (3 * max_words / 10 < 11)%Z by (apply Z.div_lt_upper_bound; lia).
    split; intros; lia.
  - rewrite Hpos by lia. split; intros H2.
    + destruct (Z.le_gt_cases max_words 286) as [?|Hbig]; [assumption|].
      assert (86 <= 3 * max_words / 10)%Z by (apply Z.div_le_lower_bound; lia). lia.
    + assert (3 * max_words / 10 < 86)%Z by (apply Z.div_lt_upper_bound; lia). lia.
Qed.

Lemma generation_config_min_below_max_witness :
  exists cfg, Main.generation_config 287 = Ok cfg /\
    ((min_length cfg <= max_length cfg)%Z <-> (287 <= 286)%Z).
Proof. apply (generation_config_min_below_max 287). vm_compute. reflexivity. Defined.

(** In interactive mode the number of words always lies in 5..50, so the
    model is always asked for a minimum length of exactly 15 and a maximum
    between 40 and 85. *)
Theorem interactive_generation_config (py_int : pystr -> option Z)
    (max_words_input : pystr) :
  (5 <= interactive_max_words py_int max_words_input <= 50)%Z /\
  exists cfg,
    Main.generation_config (interactive_max_words py_int max_words_input) = Ok cfg /\
    min_length cfg = 15%Z /\ (40 <= max_length cfg <= 85)%Z.
Proof.
  assert (Hrange : (5 <= interactive_max_words py_int max_words_input <= 50)%Z).
  { unfold interactive_max_words. cbv zeta.
    destruct (truthy max_words_input); [|lia].
    destruct (py_int max_words_input) as [n|]; [|lia].
    destruct (Z.ltb_spec n 5); [lia|]. destruct (Z.ltb_spec 50 n); lia. }
  split; [exact Hrange|].
  set (mw := interactive_max_words py_int max_words_input) in *.
  destruct (generation_config_in_range mw) as (cfg & Hcfg & Hmin & Hmax); [lia|].
  exists cfg. split; [exact Hcfg|]. rewrite Hmin, Hmax.
  destruct (three_tenths_quot mw) as [Hpos _]. rewrite Hpos by lia.
  assert (3 * mw / 10 < 16)%Z by (apply Z.div_lt_upper_bound; lia).
  split; [lia|]. unfold Main.tier.
  destruct (mw <=? 15)%Z; [cbn; lia|]. destruct (mw <=? 25)%Z; [cbn; lia|].
  destruct (mw <=? 35)%Z; cbn; lia.
Qed.

(** ** The batch, record by record *)

Lemma generate_title_from_file_cases (E : env) (file_path : pystr) (w : world) :
  exists r w',
    Extract.generate_title_from_file E file_path w = (Ok r, w') /\
    forall title, r = Some title -> exists decoded, title = Extract.clean_title decoded.
Proof.
  unfold Extract.generate_title_from_file.
  destruct (extract_text_from_file_returns E file_path w) as (t & w1 & Ht).
  unfold bind at 1. rewrite Ht.
  destruct t as [text|]; [|unfold ret; eexists _, _; split; [reflexivity|easy]].
  destruct (truthy text); cbn [negb];
    [|unfold ret; eexists _, _; split; [reflexivity|easy]].
  unfold T5Tokenizer_from_pretrained, T5ForConditionalGeneration_from_pretrained,
    model_to,
    tokenizer, generate, decode_output.
  unfold_monad. cbv beta iota.
  repeat (step_call; try (eexists _, _; split; [reflexivity|easy])).
  eexists _, _. split; [reflexivity|].
  intros title [= <-]. eauto.
Qed.

Lemma process_files_records (E : env) (all_files files_left : list pystr)
    (acc : list batch_record) (w : world) :
  (forall p, p ∈ files_left -> p ∈ all_files) ->
  Forall (record_ok all_files) acc ->
  exists results w',
    Extract.process_files E files_left acc w = (Ok results, w') /\
    Forall (record_ok all_files) results /\
    sublist (r_path <$> results) ((r_path <$> acc) ++ files_left).
Proof.
  revert acc w. induction files_left as [|p rest IH]; intros acc w Hin Hacc.
  - exists acc, w. split; [reflexivity|]. split; [exact Hacc|].
    now rewrite app_nil_r.
  - cbn [Extract.process_files]. unfold bind at 1.
    destruct (generate_title_from_file_cases E p w) as (r & w1 & -> & Hshape).
    assert (Hrest : forall q, q ∈ rest -> q ∈ all_files)
      by (intros q Hq; apply Hin; now right).
    assert (Hskip : forall w0,
      exists results w',
        Extract.process_files E rest acc w0 = (Ok results, w') /\
        Forall (record_ok all_files) results /\
        sublist (r_path <$> results) ((r_path <$> acc) ++ p :: rest)).
    { intros w0. destruct (IH acc w0 Hrest Hacc) as (res & w' & Hrun & Hok & Hsub).
      exists res, w'. split; [exact Hrun|]. split; [exact Hok|].
      etransitivity; [exact Hsub|].
      apply sublist_app; [reflexivity|]. now apply sublist_cons. }
    destruct r as [title|]; [|apply Hskip].
    destruct (truthy title) eqn:Htruthy; [|apply Hskip].
    unfold bind, now_isoformat.
    destruct (Hshape title eq_refl) as [decoded ->].
    destruct (clean_title_shape decoded) as (Hwords & _ & Hstrip).
    set (rec := {| r_filename := path_name p;
                   r_title := Extract.clean_title decoded; r_path := p;
                   r_processed_at := datetime_now E (ticks w1);
                   r_word_count := length (split (Extract.clean_title decoded)) |}).
    assert (Hrec : record_ok all_files rec).
    { assert (Hne : Extract.clean_title decoded <> [])
        by (destruct (Extract.clean_title decoded); [discriminate|discriminate]).
      pose proof (split_stripped_nonempty _ Hne Hstrip) as Hsp.
      unfold record_ok, rec, word_count in *.
      cbn [r_path r_filename r_title r_word_count].
      split; [apply Hin; left|]. split; [reflexivity|]. split; [exact Hne|].
      split; [reflexivity|]. split; [|exact Hwords].
      destruct (split (Extract.clean_title decoded)); [congruence|cbn; lia]. }
    destruct (IH (acc ++ [rec])
                {| files := files w1; calls := calls w1; temps := temps w1;
                   ticks := S (ticks w1) |} Hrest)
      as (res & w' & Hrun & Hok & Hsub).
    { apply Forall_app. split; [exact Hacc|]. now constructor. }
    exists res, w'. split; [exact Hrun|]. split; [exact Hok|].
    rewrite fmap_app, <- app_assoc in Hsub. exact Hsub.
Qed.

(** ** The scan *)

Lemma list_map_fmap {A B : Type} (f : A -> B) (l : list A) : map f l = f <$> l.
Proof. induction l as [|x l IH]; [reflexivity|]. simpl. now rewrite IH. Qed.

Lemma NoDup_omap_inj {A B : Type} (f : A -> option B) (l : list A) :
  (forall x y z, f x = Some z -> f y = Some z -> x = y) ->
  NoDup l -> NoDup (omap f l).
Proof.
  intros Hinj Hl. induction Hl as [|x l Hx Hl IH]; [constructor|].
  simpl. destruct (f x) as [z|] eqn:Hfx; [|exact IH].
  constructor; [|exact IH].
  intros Hz. apply list_elem_of_omap in Hz as (y & Hy & Hfy).
  now rewrite (Hinj x y z Hfx Hfy) in Hx.
Qed.

Lemma listdir_NoDup (folder : pystr) (w : world) : NoDup (listdir folder w).
Proof.
  unfold listdir. apply NoDup_omap_inj.
  - intros x y z Hx Hy. unfold entry_name in *.
    destruct (truthy (path_name x) && bool_decide (path_child folder (path_name x) = x))
      eqn:Hbx; [|discriminate].
    destruct (truthy (path_name y) && bool_decide (path_child folder (path_name y) = y))
      eqn:Hby; [|discriminate].
    apply andb_true_iff in Hbx as [_ Hbx]. apply bool_decide_eq_true in Hbx.
    apply andb_true_iff in Hby as [_ Hby]. apply bool_decide_eq_true in Hby.
    congruence.
  - rewrite list_map_fmap. apply NoDup_fst_map_to_list.
Qed.

Lemma list_filter_elem {A : Type} (p : A -> bool) (l : list A) (x : A) :
  x ∈ List.filter p l <-> x ∈ l /\ p x = true.
Proof. rewrite !list_elem_of_In. apply filter_In. Qed.

Lemma list_filter_NoDup {A : Type} (p : A -> bool) (l : list A) :
  NoDup l -> NoDup (List.filter p l).
Proof.
  intros Hl. induction Hl as [|x l Hx Hl IH]; [constructor|].
  simpl. destruct (p x); [|exact IH].
  constructor; [|exact IH]. intros H. now apply list_filter_elem in H as [H _].
Qed.

(** The names the scan keeps, pattern by pattern. *)
Lemma collect_files_names (folder : pystr) (w : world) :
  Extract.collect_files folder w
    = (Ok (map (path_child folder)
             (flat_map (fun ext => List.filter (ends_with ext) (listdir folder w))
                scan_patterns)), w).
Proof.
  unfold Extract.collect_files, Extract.supported_extensions, scan_patterns, glob.
  f_equal. f_equal. cbn [flat_map].
  rewrite !app_nil_r, !map_app, <- !app_assoc. reflexivity.
Qed.

Ltac last_char_clash :=
  match goal with
  | H1 : ends_with ?e1 ?x = true, H2 : ends_with ?e2 ?x = true |- _ =>
    apply ends_with_last in H1; [|discriminate];
    apply ends_with_last in H2; [|discriminate];
    rewrite H1 in H2; vm_compute in H2; discriminate H2
  end.

Lemma scan_names_NoDup (names : list pystr) :
  NoDup names ->
  NoDup (flat_map (fun ext => List.filter (ends_with ext) names) scan_patterns).
Proof.
  intros Hnames. unfold scan_patterns. cbn [flat_map]. rewrite app_nil_r.
  repeat (apply NoDup_app; split; [now apply list_filter_NoDup|split]);
    try (now apply list_filter_NoDup);
    intros x Hx Hlater; apply list_filter_elem in Hx as [_ Hx];
    repeat (apply elem_of_app in Hlater as [Hlater|Hlater];
            [apply list_filter_elem in Hlater as [_ Hlater]; last_char_clash|]);
    apply list_filter_elem in Hlater as [_ Hlater]; last_char_clash.
Qed.

Lemma scan_names_listed (folder : pystr) (w : world) (n : pystr) :
  n ∈ flat_map (fun ext => List.filter (ends_with ext) (listdir folder w))
        scan_patterns ->
  n ∈ listdir folder w /\
  exists ext, ext ∈ scan_patterns /\ ends_with ext n = true.
Proof.
  intros Hn.
  apply list_elem_of_In, in_flat_map in Hn as (ext & Hext & Hn).
  apply list_elem_of_In, list_filter_elem in Hn as [Hn Hends].
  split; [exact Hn|]. exists ext. split; [now apply list_elem_of_In|exact Hends].
Qed.

Lemma collect_files_NoDup (folder : pystr) (w : world) :
  NoDup (map (path_child folder)
           (flat_map (fun ext => List.filter (ends_with ext) (listdir folder w))
              scan_patterns)).
Proof.
  apply (NoDup_fmap_1 path_name). rewrite <- !list_map_fmap, map_map.
  rewrite (map_ext_in _ id), map_id; [apply scan_names_NoDup, listdir_NoDup|].
  intros n Hn. apply list_elem_of_In, scan_names_listed in Hn as [Hn _].
  now apply listdir_entry in Hn as [Hn _].
Qed.

(** [process_folder] scans without repetition: the list of paths it goes
    through names no path twice; each is the path of an entry of the
    folder whose name ends, letter for letter, with one of the eight
    patterns ([.pdf], [.PDF], ..., [.TXT]), so a name such as [x.Pdf] is
    never picked up. *)
Theorem collect_files_no_repetition (folder : pystr) (w : world) :
  exists all_files,
    Extract.collect_files folder w = (Ok all_files, w) /\
    NoDup all_files /\
    forall p, p ∈ all_files ->
      path_child folder (path_name p) = p /\
      exists ext, ext ∈ scan_patterns /\ ends_with ext (path_name p) = true.
Proof.
  eexists. split; [apply collect_files_names|].
  split; [apply collect_files_NoDup|].
  intros p Hp. apply list_elem_of_In, in_map_iff in Hp as (n & <- & Hn).
  apply list_elem_of_In, scan_names_listed in Hn as [Hn (ext & Hext & Hends)].
  apply listdir_entry in Hn as [Hname _].
  rewrite Hname. split; [reflexivity|]. exists ext. now split.
Qed.

(** ** What [process_folder] returns and writes *)

(** Every record [process_folder] returns belongs to a scanned file, in
    scan order and at most one per file; its file name is the name of its
    path, its title is not empty, and its word count is the number of
    words of the title, between 1 and 25. *)
Theorem process_folder_records (E : env) (folder_path : pystr)
    (output_file : option pystr) (w w' : world) (results : list batch_record) :
  Extract.process_folder E folder_path output_file w = (Ok results, w') ->
  exists all_files,
    Extract.collect_files folder_path w = (Ok all_files, w) /\
    Forall (record_ok all_files) results /\
    sublist (r_path <$> results) all_files /\
    NoDup (r_path <$> results).
Proof.
  intros Hrun. eexists. split; [apply collect_files_names|].
  revert Hrun. unfold Extract.process_folder. unfold bind at 1.
  rewrite collect_files_names.
  set (all_files := map (path_child folder_path) _).
  destruct (process_files_records E all_files all_files [] w)
    as (res & w1 & Hloop & Hok & Hsub); [easy|constructor|].
  unfold bind at 1. rewrite Hloop. unfold bind, ret.
  destruct (Extract.save_results E output_file res w1) as [[[]|e] w2];
    [|discriminate].
  intros [= <- <-]. split; [exact Hok|]. split; [exact Hsub|].
  eapply sublist_NoDup; [apply collect_files_NoDup|exact Hsub].
Qed.

Lemma process_folder_records_witness :
  exists all_files,
    Extract.collect_files (lit "docs") (initial docs_files)
      = (Ok all_files, initial docs_files) /\
    Forall (record_ok all_files)
      (default [] (match fst (Extract.process_folder docs_env (lit "docs") None
                                (initial docs_files)) with
                   | Ok l => Some l
                   | Raise _ => None
                   end)) /\
    sublist (r_path <$>
               default [] (match fst (Extract.process_folder docs_env (lit "docs") None
                                        (initial docs_files)) with
                           | Ok l => Some l
                           | Raise _ => None
                           end)) all_files /\
    NoDup (r_path <$>
             default [] (match fst (Extract.process_folder docs_env (lit "docs") None
                                      (initial docs_files)) with
                         | Ok l => Some l
                         | Raise _ => None
                         end)).
Proof.
  apply (process_folder_records docs_env (lit "docs") None (initial docs_files)
           (snd (Extract.process_folder docs_env (lit "docs") None
                   (initial docs_files)))).
  vm_compute. reflexivity.
Defined.

(** When [process_folder] is given a non-empty output path and returns at
    least one record, the file at that path then holds the JSON dump of
    exactly the list it returns. *)
Theorem process_folder_writes_results (E : env) (folder_path out : pystr)
    (w w' : world) (results : list batch_record) :
  Extract.process_folder E folder_path (Some out) w = (Ok results, w') ->
  out <> [] ->
  results <> [] ->
  files w' !! out = Some (json_dump E results).
Proof.
  intros Hrun Hout Hres. revert Hrun.
  unfold Extract.process_folder. unfold bind at 1. rewrite collect_files_names.
  set (all_files := map (path_child folder_path) _).
  destruct (process_files_records E all_files all_files [] w)
    as (res & w1 & Hloop & _ & _); [easy|constructor|].
  unfold bind at 1. rewrite Hloop. unfold bind, ret, Extract.save_results.
  destruct res as [|r res].
  { intros [= <- <-]. congruence. }
  destruct out as [|c out]; [congruence|]. cbn [truthy].
  unfold dump_results.
  destruct (write_failure E (c :: out) (r :: res)) as [[e [written|]]|];
    [discriminate..|].
  intros [= <- <-]. cbn [set_files files].
  apply lookup_insert_eq.
Qed.

Lemma process_folder_writes_results_witness :
  files (snd (Extract.process_folder docs_env (lit "docs") (Some (lit "out.json"))
                (initial docs_files))) !! lit "out.json"
    = Some (json_dump docs_env
              (default [] (match fst (Extract.process_folder docs_env (lit "docs")
                                        (Some (lit "out.json")) (initial docs_files)) with
                           | Ok l => Some l
                           | Raise _ => None
                           end))).
Proof.
  apply (process_folder_writes_results docs_env (lit "docs") (lit "out.json")
           (initial docs_files)).
  - vm_compute. reflexivity.
  - intros H. vm_compute in H. discriminate H.
  - intros H. vm_compute in H. discriminate H.
Defined.

(** ** A word limit of zero or less *)

Lemma slice_to_negative_length {A : Type} (n : Z) (l : list A) :
  (n < 0)%Z -> length (slice_to n l) = (length l - Z.to_nat (- n))%nat.
Proof.
  intros Hn. unfold slice_to.
  destruct (Z.leb_spec 0 n) as [Hge|_]; [lia|].
  rewrite length_take. lia.
Qed.

Lemma limit_words_nonpositive (title : pystr) (max_words : Z) :
  (max_words = 0%Z -> Main.limit_words title max_words = []) /\
  ((max_words < 0)%Z ->
   word_count (Main.limit_words title max_words)
     = (word_count title - Z.to_nat (- max_words))%nat).
Proof.
  unfold Main.limit_words, word_count. split.
  - intros ->.
    destruct (Z.ltb_spec 0 (Z.of_nat (length (split title)))) as [Hlt|Hge].
    + reflexivity.
    + destruct (strip title) as [|c s] eqn:Hst; [reflexivity|].
      exfalso. apply (split_stripped_nonempty (strip title)).
      * now rewrite Hst.
      * apply strip_idem.
      * rewrite split_strip. destruct (split title); [reflexivity|simpl in Hge; lia].
  - intros Hneg. rewrite split_strip.
    destruct (Z.ltb_spec max_words (Z.of_nat (length (split title)))) as [_|Hge];
      [|lia].
    rewrite split_join_words by (apply slice_to_words, split_is_words).
    now apply slice_to_negative_length.
Qed.

(** The command line passes any integer on as [max_words].  With
    [max_words = 0] a generated annotation is the empty string; with a
    negative [max_words] the slice [words[:max_words]] counts from the end,
    so the annotation has [-max_words] words fewer than the cleaned title
    (none at all when the title has no more than that). *)
Theorem generate_annotation_nonpositive_limit (E : env) (text : pystr)
    (max_words : Z) (mp : pystr) (w w' : world) (r : pystr) :
  (max_words <= 0)%Z ->
  Main.generate_annotation E text max_words mp w = (Ok r, w') ->
  r <> Main.NO_TEXT ->
  r <> Main.GENERATION_ERROR ->
  exists outputs decoded,
    tokenizer_decode E outputs = Ok decoded /\
    (max_words = 0%Z -> r = []) /\
    ((max_words < 0)%Z ->
     word_count r
       = (word_count (Main.cleaned_title decoded max_words)
          - Z.to_nat (- max_words))%nat).
Proof.
  intros Hmw Hrun Hno Herr.
  destruct (generate_annotation_cases E text max_words mp w)
    as (r0 & w0 & Hrun0 & Hcases).
  rewrite Hrun in Hrun0. injection Hrun0 as <- <-.
  destruct Hcases as [?|[?|(outputs & decoded & Hdec & ->)]]; [congruence..|].
  exists outputs, decoded. split; [exact Hdec|].
  apply limit_words_nonpositive.
Qed.

Lemma generate_annotation_nonpositive_limit_witness :
  exists outputs decoded,
    tokenizer_decode (sample_env (lit "one two three four five six")) outputs
      = Ok decoded /\
    ((-2)%Z = 0%Z -> lit "one two three four" = []) /\
    ((-2 < 0)%Z ->
     word_count (lit "one two three four")
       = (word_count (Main.cleaned_title decoded (-2)) - Z.to_nat (- (-2)))%nat).
Proof.
  eapply (generate_annotation_nonpositive_limit
            (sample_env (lit "one two three four five six"))
            (lit "some document text") (-2) Main.default_model_path (initial ∅)).
  - lia.
  - vm_compute. reflexivity.
  - intros H. vm_compute in H. discriminate H.
  - intros H. vm_compute in H. discriminate H.
Defined.

(** ** [generate_title_from_file] from the outside *)



(** ** The batch with a damaged PDF *)






(** * With the console *)

(** ** What printing leaves alone *)

Create HintDb frame.

Lemma leaves_world_ret {A : Type} (a : A) : leaves_world (ret a).
Proof. easy. Qed.

Lemma leaves_world_raise {A : Type} (e : exn) : leaves_world (@raise A e).
Proof. easy. Qed.

Lemma leaves_world_lift {A : Type} (o : outcome A) : leaves_world (lift o).
Proof. easy. Qed.

Lemma leaves_world_print (C : console) (s : pystr) : leaves_world (print C s).
Proof. easy. Qed.

Lemma leaves_world_bind {A B : Type} (m : M A) (k : A -> M B) :
  leaves_world m -> (forall a, leaves_world (k a)) -> leaves_world (bind m k).
Proof.
  intros Hm Hk w. unfold bind. specialize (Hm w).
  destruct (m w) as [[a|e] w1]; cbn [snd] in *; subst w1; [apply Hk|reflexivity].
Qed.

Lemma leaves_world_try_except {A : Type} (catches : exn -> bool) (body : M A)
    (handler : exn -> M A) :
  leaves_world body -> (forall e, leaves_world (handler e)) ->
  leaves_world (try_except catches body handler).
Proof.
  intros Hm Hh w. unfold try_except. specialize (Hm w).
  destruct (body w) as [[a|e] w1]; cbn [snd] in *; subst w1; [reflexivity|].
  destruct (catches e); [apply Hh|reflexivity].
Qed.

Lemma leaves_world_open_read (p : pystr) (enc : encoding) (ignore : bool) :
  leaves_world (open_read p enc ignore).
Proof.
  intros w. unfold open_read.
  destruct (files w !! p); [destruct (decode enc ignore _)|]; reflexivity.
Qed.

Lemma leaves_world_pdfplumber_open_path (E : env) (p : pystr) :
  leaves_world (pdfplumber_open_path E p).
Proof. intros w. unfold pdfplumber_open_path. now destruct (files w !! p). Qed.

Lemma leaves_world_Document (E : env) (p : pystr) : leaves_world (Document E p).
Proof. intros w. unfold Document. now destruct (files w !! p). Qed.

Lemma leaves_world_path_exists (E : env) (p : pystr) : leaves_world (path_exists E p).
Proof. easy. Qed.

Lemma leaves_world_if {A : Type} (b : bool) (m1 m2 : M A) :
  leaves_world m1 -> leaves_world m2 -> leaves_world (if b then m1 else m2).
Proof. now destruct b. Qed.

#[local] Hint Resolve leaves_world_ret leaves_world_raise leaves_world_lift
  leaves_world_print leaves_world_open_read leaves_world_pdfplumber_open_path
  leaves_world_Document leaves_world_path_exists : frame.

(** Splits an action along its binds, handlers and branches. *)
Ltac frame_step :=
  match goal with
  | |- leaves_world (bind _ _) => apply leaves_world_bind; [|intros ?]
  | |- leaves_world (try_except _ _ _) => apply leaves_world_try_except; [|intros ?]
  | |- leaves_world (if _ then _ else _) => apply leaves_world_if
  | |- leaves_world (match ?x with Some _ => _ | None => _ end) => destruct x
  | |- leaves_world (let _ := _ in _) => cbv zeta
  | |- leaves_world _ => solve [auto with frame]
  end.

Lemma leaves_world_pdf_pages (pages : list (outcome (option pystr)))
    (text_parts : list pystr) : leaves_world (pdf_pages pages text_parts).
Proof.
  revert text_parts. induction pages as [|page pages IH]; intros text_parts;
    cbn [pdf_pages]; repeat frame_step; apply IH.
Qed.

Lemma leaves_world_main_txt_encodings (C : console) (txt_path : pystr)
    (encodings : list encoding) :
  leaves_world (MainIO.txt_encodings C txt_path encodings).
Proof.
  induction encodings as [|enc encodings IH]; cbn [MainIO.txt_encodings];
    repeat frame_step; exact IH.
Qed.

#[local] Hint Resolve leaves_world_pdf_pages leaves_world_main_txt_encodings : frame.

Lemma leaves_world_main_extract_text_from_file (C : console) (E : env)
    (file_path : pystr) :
  leaves_world (MainIO.extract_text_from_file C E file_path).
Proof.
  unfold MainIO.extract_text_from_file, MainIO.extract_text_from_pdf,
    MainIO.extract_text_from_docx, MainIO.extract_text_from_txt.
  repeat frame_step.
Qed.

Lemma leaves_files_of_world {A : Type} (m : M A) : leaves_world m -> leaves_files m.
Proof. intros H w. now rewrite H. Qed.

Lemma leaves_files_log_call (c : call) : leaves_files (log_call c).
Proof. easy. Qed.

Lemma leaves_files_bind {A B : Type} (m : M A) (k : A -> M B) :
  leaves_files m -> (forall a, leaves_files (k a)) -> leaves_files (bind m k).
Proof.
  intros Hm Hk w. unfold bind. specialize (Hm w).
  destruct (m w) as [[a|e] w1]; cbn [snd] in *; [|exact Hm].
  now rewrite Hk.
Qed.

Lemma leaves_files_try_except {A : Type} (catches : exn -> bool) (body : M A)
    (handler : exn -> M A) :
  leaves_files body -> (forall e, leaves_files (handler e)) ->
  leaves_files (try_except catches body handler).
Proof.
  intros Hm Hh w. unfold try_except. specialize (Hm w).
  destruct (body w) as [[a|e] w1]; cbn [snd] in *; [exact Hm|].
  destruct (catches e); [|exact Hm]. now rewrite Hh.
Qed.

Ltac files_step :=
  match goal with
  | |- leaves_files (bind _ _) => apply leaves_files_bind; [|intros ?]
  | |- leaves_files (try_except _ _ _) => apply leaves_files_try_except; [|intros ?]
  | |- leaves_files (log_call _) => apply leaves_files_log_call
  | |- leaves_files (if ?b then _ else _) => destruct b
  | |- leaves_files (let _ := _ in _) => cbv zeta
  | |- leaves_files _ => solve [apply leaves_files_of_world; auto with frame]
  end.

Lemma leaves_files_generate_annotation (C : console) (E : env) (text : pystr)
    (max_words : Z) (mp : pystr) :
  leaves_files (MainIO.generate_annotation C E text max_words mp).
Proof.
  unfold MainIO.generate_annotation, T5Tokenizer_from_pretrained,
    T5ForConditionalGeneration_from_pretrained, model_to, tokenizer, generate,
    decode_output.
  repeat files_step.
Qed.

(** ** What escapes [extract_text_from_file] *)

(** The outcome of a [try ... except Exception] whose handler prints one
    line and returns: a result, or the exception that printing the line
    raised. *)
Lemma try_except_print_escapes {A : Type} (C : console) (body : M A)
    (line : exn -> pystr) (fallback : A) (w w' : world) (e : exn) :
  try_except any_exception body (fun e0 => print C (line e0) ;;; ret fallback) w
    = (Raise e, w') ->
  exists e0, stdout_print C (line e0) = Raise e.
Proof.
  unfold try_except, any_exception, bind, print, lift, ret.
  destruct (body w) as [[a|e0] w1]; [discriminate|].
  destruct (stdout_print C (line e0)) as [[]|e1] eqn:Hprint; [discriminate|].
  intros [= <- _]. now exists e0.
Qed.

(** C2 at a failing input: a file name that is not UTF-8, on a console
    that writes UTF-8.  The suffix is not a supported one, the diagnostic
    that says so cannot be printed, the handler catches that and fails to
    print its own diagnostic, which names the path: [UnicodeEncodeError]
    leaves [extract_text_from_file], in both files, whatever the libraries
    and the file system. *)
Theorem extract_text_from_file_escapes (E : env) (w : world)
    (texts : exn -> pystr) :
  existsb is_surrogate undecodable_name = true /\
  lower (path_suffix undecodable_name) = [46; 56575] /\
  ExtractIO.extract_text_from_file (utf8_console texts) E undecodable_name w
    = (Raise UnicodeEncodeError, w) /\
  MainIO.extract_text_from_file (utf8_console texts) E undecodable_name w
    = (Raise UnicodeEncodeError, w).
Proof.
  split; [reflexivity|]. split; [vm_compute; reflexivity|].
  split; vm_compute; reflexivity.
Qed.

(** An exception leaves [extract_text_from_file] in no other way: what
    escapes is what printing the handler's diagnostic raised, so on a
    console that prints every line the function returns.  In every case
    [main.py]'s version leaves the world as it was. *)
Theorem extract_text_from_file_escapes_only_printing (C : console) (E : env)
    (file_path : pystr) (w : world) :
  (forall e w',
     ExtractIO.extract_text_from_file C E file_path w = (Raise e, w') ->
     exists e0,
       stdout_print C (lit "❌ Ошибка при чтении файла " ++ file_path ++ lit ": "
                         ++ exception_str C e0) = Raise e) /\
  (forall e w',
     MainIO.extract_text_from_file C E file_path w = (Raise e, w') ->
     exists e0,
       stdout_print C (lit "❌ Ошибка при чтении файла " ++ file_path ++ lit ": "
                         ++ slice_to 100 (exception_str C e0)) = Raise e) /\
  snd (MainIO.extract_text_from_file C E file_path w) = w /\
  ((forall s, stdout_print C s = Ok tt) ->
   (exists r w', ExtractIO.extract_text_from_file C E file_path w = (Ok r, w')) /\
   (exists r, MainIO.extract_text_from_file C E file_path w = (Ok r, w))).
Proof.
  assert (H1 : forall e w',
     ExtractIO.extract_text_from_file C E file_path w = (Raise e, w') ->
     exists e0,
       stdout_print C (lit "❌ Ошибка при чтении файла " ++ file_path ++ lit ": "
                         ++ exception_str C e0) = Raise e).
  { intros e w' Hrun.
    apply (try_except_print_escapes C _
             (fun e0 => lit "❌ Ошибка при чтении файла " ++ file_path ++ lit ": "
                          ++ exception_str C e0) None w w' e Hrun). }
  assert (H2 : forall e w',
     MainIO.extract_text_from_file C E file_path w = (Raise e, w') ->
     exists e0,
       stdout_print C (lit "❌ Ошибка при чтении файла " ++ file_path ++ lit ": "
                         ++ slice_to 100 (exception_str C e0)) = Raise e).
  { intros e w' Hrun.
    apply (try_except_print_escapes C _
             (fun e0 => lit "❌ Ошибка при чтении файла " ++ file_path ++ lit ": "
                          ++ slice_to 100 (exception_str C e0)) None w w' e Hrun). }
  pose proof (leaves_world_main_extract_text_from_file C E file_path w) as Hw.
  split; [exact H1|]. split; [exact H2|]. split; [exact Hw|].
  intros Hprint. split.
  - destruct (ExtractIO.extract_text_from_file C E file_path w) as [[r|e] w'] eqn:Hrun;
      [eauto|].
    destruct (H1 e w' eq_refl) as [e0 He0]. rewrite Hprint in He0. discriminate He0.
  - destruct (MainIO.extract_text_from_file C E file_path w) as [[r|e] w'] eqn:Hrun;
      cbn [snd] in Hw; subst w'; [eauto|].
    destruct (H2 e w eq_refl) as [e0 He0]. rewrite Hprint in He0. discriminate He0.
Qed.

(** ** [generate_annotation] and the console *)

(** [generate_annotation] catches every exception of the tokenizer and the
    model.  The one way an exception leaves it is the handler's own
    [print]: what escapes is what printing the diagnostic of a caught
    exception raised.  A string it returns has no white space at either
    end, and the files are as before whatever the outcome. *)
Theorem generate_annotation_escapes_only_printing (C : console) (E : env)
    (text : pystr) (max_words : Z) (mp : pystr) (w : world) :
  exists o w',
    MainIO.generate_annotation C E text max_words mp w = (o, w') /\
    files w' = files w /\
    (forall r, o = Ok r -> strip r = r) /\
    (forall e, o = Raise e ->
       exists e0,
         stdout_print C (lit "❌ Ошибка при генерации аннотации: "
                           ++ slice_to 100 (exception_str C e0)) = Raise e).
Proof.
  pose proof (leaves_files_generate_annotation C E text max_words mp w) as Hfiles.
  destruct (MainIO.generate_annotation C E text max_words mp w) as [o w'] eqn:Hrun.
  exists o, w'. split; [reflexivity|]. split; [exact Hfiles|]. split.
  - intros r ->. revert Hrun. unfold MainIO.generate_annotation.
    destruct (negb (truthy text) || (length (strip text) =? 0)%nat).
    { intros [= <- _]. reflexivity. }
    unfold T5Tokenizer_from_pretrained, T5ForConditionalGeneration_from_pretrained,
      model_to, tokenizer, generate, decode_output, print.
    unfold_monad. cbv beta iota.
    repeat (step_call; try discriminate; try (intros [= <- _]; reflexivity)).
    intros [= <- _]. unfold Main.limit_words. apply strip_idem.
  - intros e ->. revert Hrun. unfold MainIO.generate_annotation.
    destruct (negb (truthy text) || (length (strip text) =? 0)%nat); [discriminate|].
    intros Hrun.
    apply (try_except_print_escapes C _
             (fun e0 => lit "❌ Ошибка при генерации аннотации: "
                          ++ slice_to 100 (exception_str C e0))
             Main.GENERATION_ERROR w w' e Hrun).
Qed.

(** ** The file pipeline of [main.py] and the console *)

(** [generate_annotation_from_file] never changes a file, whatever its
    outcome.  When it returns: for a path that is neither a file nor a
    directory the result is the "not found" message followed by the path,
    and for a file whose lower-cased suffix is none of [.pdf], [.docx],
    [.txt] ([.doc] included) it is the "no text" message; in both cases
    nothing was loaded or run. *)
Theorem generate_annotation_from_file_outcomes (C : console) (E : env)
    (file_path : pystr) (max_words : Z) (w : world) :
  exists o w',
    MainIO.generate_annotation_from_file C E file_path max_words w = (o, w') /\
    files w' = files w /\
    forall r, o = Ok r ->
      (files w !! file_path = None -> isdir E file_path = false ->
       r = FILE_NOT_FOUND ++ file_path /\ w' = w) /\
      (is_Some (files w !! file_path) ->
       lower (path_suffix file_path) ∉ [lit ".pdf"; lit ".docx"; lit ".txt"] ->
       r = NO_TEXT_EXTRACTED /\ w' = w).
Proof.
  unfold MainIO.generate_annotation_from_file.
  unfold bind at 1, print at 1, lift at 1.
  destruct (stdout_print C _) as [[]|e]; [|eexists _, _; repeat split; discriminate].
  unfold bind at 1, print at 1, lift at 1.
  destruct (stdout_print C _) as [[]|e]; [|eexists _, _; repeat split; discriminate].
  unfold bind at 1, print at 1, lift at 1.
  destruct (stdout_print C _) as [[]|e]; [|eexists _, _; repeat split; discriminate].
  unfold bind at 1, path_exists.
  destruct (files w !! file_path) as [content|] eqn:Hfile.
  - rewrite bool_decide_eq_true_2 by eauto. cbn [orb negb].
    pose proof (leaves_world_main_extract_text_from_file C E file_path w) as Hw.
    assert (Hunsupported :
      lower (path_suffix file_path) ∉ [lit ".pdf"; lit ".docx"; lit ".txt"] ->
      forall t, fst (MainIO.extract_text_from_file C E file_path w) = Ok t ->
      t = None).
    { intros Hext t. repeat (apply not_elem_of_cons in Hext as [? Hext]).
      unfold MainIO.extract_text_from_file. cbv zeta.
      rewrite !pystr_eqb_neq by assumption. cbn [andb].
      unfold try_except, any_exception, bind, print, lift, ret.
      destruct (stdout_print C _) as [[]|e1]; cbn [fst].
      - now intros [= <-].
      - destruct (stdout_print C _) as [[]|e2]; cbn [fst]; [now intros [= <-]|discriminate]. }
    unfold bind at 1.
    destruct (MainIO.extract_text_from_file C E file_path w) as [[t|e] w1];
      cbn [fst snd] in Hw, Hunsupported; subst w1;
      [|eexists _, _; repeat split; discriminate].
    destruct t as [text|].
    + destruct (truthy text).
      * unfold bind at 1, print at 1, lift at 1.
        destruct (stdout_print C _) as [[]|e];
          [|eexists _, _; split; [reflexivity|]; split; [reflexivity|]; discriminate].
        pose proof (leaves_files_generate_annotation C E text max_words
                      Main.default_model_path w) as Hfiles.
        destruct (MainIO.generate_annotation C E text max_words
                    Main.default_model_path w) as [o w2].
        cbn [snd] in Hfiles.
        exists o, w2. split; [reflexivity|]. split; [exact Hfiles|].
        intros r _. split; [discriminate|].
        intros _ Hext. now specialize (Hunsupported Hext _ eq_refl).
      * unfold ret. eexists _, _. split; [reflexivity|]. split; [reflexivity|].
        intros r [= <-]. split; [discriminate|].
        intros _ Hext. now specialize (Hunsupported Hext _ eq_refl).
    + unfold ret. eexists _, _. split; [reflexivity|]. split; [reflexivity|].
      intros r [= <-]. split; [discriminate|]. intros _ _. split; reflexivity.
  - rewrite bool_decide_eq_false_2 by (intros [? ?]; discriminate). cbn [orb].
    destruct (isdir E file_path) eqn:Hdir; cbn [negb].
    + pose proof (leaves_world_main_extract_text_from_file C E file_path w) as Hw.
      unfold bind at 1.
      destruct (MainIO.extract_text_from_file C E file_path w) as [[t|e] w1];
        cbn [snd] in Hw; subst w1;
        [|eexists _, _; repeat split; discriminate].
      cbv beta iota.
      match goal with
      | |- exists o w', ?m w = (o, w') /\ _ => set (act := m)
      end.
      assert (Hact : leaves_files act).
      { unfold act. destruct t as [text|]; [destruct (truthy text)|].
        - apply leaves_files_bind;
            [apply leaves_files_of_world, leaves_world_print|intros _].
          apply leaves_files_generate_annotation.
        - apply leaves_files_of_world, leaves_world_ret.
        - apply leaves_files_of_world, leaves_world_ret. }
      specialize (Hact w). destruct (act w) as [o w'].
      exists o, w'. split; [reflexivity|]. split; [exact Hact|].
      intros r _. split; [intros _ Hd; discriminate Hd|].
      intros [? Hn]. discriminate Hn.
    + unfold ret. eexists _, _. split; [reflexivity|]. split; [reflexivity|].
      intros r [= <-]. split; [intros _ _; split; reflexivity|].
      intros [? ?]. discriminate.
Qed.

(** ** The two layers agree when every line is printed *)

Section Agreement.
Context (C : console) (E : env) (Hprint : prints_every_line C).

Lemma printed (s : pystr) : stdout_print C s = Ok tt.
Proof. apply Hprint. Qed.

Lemma print_printed (s : pystr) (w : world) : print C s w = (Ok tt, w).
Proof. unfold print, lift. now rewrite printed. Qed.

(** Runs both sides to the end, case by case; [known] rewrites with what
    is already proved of the functions called. *)
Ltac plain x :=
  lazymatch x with
  | context [match _ with (_, _) => _ end] => fail
  | context [match _ with Ok _ => _ | Raise _ => _ end] => fail
  | context [match _ with Some _ => _ | None => _ end] => fail
  | context [if _ then _ else _] => fail
  | _ => idtac
  end.

Ltac run_both known :=
  unfold print; unfold try_except, bind, ret, raise, lift, any_exception;
  cbv beta iota zeta;
  repeat (first
    [ rewrite printed
    | progress known
    | match goal with
      | |- context [match ?x with (_, _) => _ end] =>
        plain x; destruct x as [[?|?] ?]
      | |- context [match ?x with Ok _ => _ | Raise _ => _ end] =>
        plain x; destruct x
      | |- context [match ?x with Some _ => _ | None => _ end] =>
        plain x; destruct x
      | |- context [if ?b then _ else _] => plain b; destruct b
      end ];
    cbv beta iota zeta);
  try reflexivity.

Lemma pdf_pages_agree (pages : list (outcome (option pystr))) (page_num : nat)
    (text_parts : list pystr) (w : world) :
  ExtractIO.pdf_pages C pages page_num text_parts w = pdf_pages pages text_parts w.
Proof.
  revert page_num text_parts.
  induction pages as [|page pages IH]; intros page_num text_parts; [reflexivity|].
  cbn [ExtractIO.pdf_pages pdf_pages].
  run_both ltac:(rewrite IH).
Qed.

Lemma extract_pdf_agree (pdf_path : pystr) (w : world) :
  ExtractIO.extract_text_from_pdf C E pdf_path w = extract_text_from_pdf E pdf_path w.
Proof.
  unfold ExtractIO.extract_text_from_pdf, extract_text_from_pdf.
  run_both ltac:(rewrite pdf_pages_agree).
Qed.

Lemma main_pdf_agree (pdf_path : pystr) (w : world) :
  MainIO.extract_text_from_pdf C E pdf_path w = extract_text_from_pdf E pdf_path w.
Proof.
  unfold MainIO.extract_text_from_pdf, extract_text_from_pdf.
  run_both idtac.
Qed.

Lemma extract_docx_agree (docx_path : pystr) (w : world) :
  ExtractIO.extract_text_from_docx C E docx_path w
    = Extract.extract_text_from_docx E docx_path w.
Proof.
  unfold ExtractIO.extract_text_from_docx, Extract.extract_text_from_docx.
  run_both idtac.
Qed.

Lemma main_docx_agree (docx_path : pystr) (w : world) :
  MainIO.extract_text_from_docx C E docx_path w
    = Main.extract_text_from_docx E docx_path w.
Proof.
  unfold MainIO.extract_text_from_docx, Main.extract_text_from_docx.
  run_both idtac.
Qed.

Lemma extract_txt_encodings_agree (txt_path : pystr) (encodings : list encoding)
    (w : world) :
  ExtractIO.txt_encodings C txt_path encodings w = txt_encodings txt_path encodings w.
Proof.
  induction encodings as [|enc encodings IH]; [reflexivity|].
  cbn [ExtractIO.txt_encodings txt_encodings].
  unfold print; unfold try_except, bind, lift, ret.
  destruct (open_read txt_path enc false w) as [[text|e] w1] eqn:Hread.
  - now rewrite printed.
  - destruct (is_UnicodeDecodeError e); [|reflexivity].
    assert (w1 = w) as -> by (pose proof (leaves_world_open_read txt_path enc false w) as H;
                              now rewrite Hread in H).
    exact IH.
Qed.

Lemma main_txt_encodings_agree (txt_path : pystr) (encodings : list encoding)
    (w : world) :
  MainIO.txt_encodings C txt_path encodings w = txt_encodings txt_path encodings w.
Proof.
  induction encodings as [|enc encodings IH]; [reflexivity|].
  cbn [MainIO.txt_encodings txt_encodings].
  unfold print; unfold try_except, bind, lift, ret.
  destruct (open_read txt_path enc false w) as [[text|e] w1] eqn:Hread.
  - now rewrite printed.
  - destruct (is_UnicodeDecodeError e); [|reflexivity].
    assert (w1 = w) as -> by (pose proof (leaves_world_open_read txt_path enc false w) as H;
                              now rewrite Hread in H).
    exact IH.
Qed.

Lemma extract_txt_agree (txt_path : pystr) (w : world) :
  ExtractIO.extract_text_from_txt C txt_path w = Extract.extract_text_from_txt txt_path w.
Proof.
  unfold ExtractIO.extract_text_from_txt, Extract.extract_text_from_txt,
    extract_text_from_txt_with.
  run_both ltac:(rewrite extract_txt_encodings_agree).
Qed.

Lemma main_txt_agree (txt_path : pystr) (w : world) :
  MainIO.extract_text_from_txt C txt_path w = Main.extract_text_from_txt txt_path w.
Proof.
  unfold MainIO.extract_text_from_txt, Main.extract_text_from_txt,
    extract_text_from_txt_with.
  run_both ltac:(rewrite main_txt_encodings_agree).
Qed.

Lemma doc_via_antiword_agree (doc_path : pystr) (w : world) :
  ExtractIO.doc_via_antiword C E doc_path w = Extract.doc_via_antiword E doc_path w.
Proof.
  unfold ExtractIO.doc_via_antiword, Extract.doc_via_antiword.
  run_both idtac.
Qed.

Lemma doc_via_libreoffice_agree (doc_path : pystr) (w : world) :
  ExtractIO.doc_via_libreoffice C E doc_path w
    = Extract.doc_via_libreoffice E doc_path w.
Proof.
  unfold ExtractIO.doc_via_libreoffice, Extract.doc_via_libreoffice.
  run_both idtac.
Qed.

Lemma extract_doc_agree (doc_path : pystr) (w : world) :
  ExtractIO.extract_text_from_doc C E doc_path w
    = Extract.extract_text_from_doc E doc_path w.
Proof.
  unfold ExtractIO.extract_text_from_doc, Extract.extract_text_from_doc.
  run_both ltac:(rewrite ?doc_via_antiword_agree, ?doc_via_libreoffice_agree).
Qed.

Lemma extract_file_agree (file_path : pystr) (w : world) :
  ExtractIO.extract_text_from_file C E file_path w
    = Extract.extract_text_from_file E file_path w.
Proof.
  unfold ExtractIO.extract_text_from_file, Extract.extract_text_from_file.
  unfold try_except. cbv zeta.
  repeat match goal with
         | |- context [if pystr_eqb ?a ?b then _ else _] => destruct (pystr_eqb a b)
         end;
    rewrite ?extract_pdf_agree, ?extract_docx_agree, ?extract_doc_agree,
      ?extract_txt_agree;
    run_both idtac.
Qed.

Lemma main_file_agree (file_path : pystr) (w : world) :
  MainIO.extract_text_from_file C E file_path w
    = Main.extract_text_from_file E file_path w.
Proof.
  unfold MainIO.extract_text_from_file, Main.extract_text_from_file.
  unfold try_except. cbv zeta.
  repeat match goal with
         | |- context [if ?c then _ else _] => plain c; destruct c
         end;
    rewrite ?main_pdf_agree, ?main_docx_agree, ?main_txt_agree;
    run_both idtac.
Qed.

Lemma generate_annotation_agree (text : pystr) (max_words : Z) (mp : pystr)
    (w : world) :
  MainIO.generate_annotation C E text max_words mp w
    = Main.generate_annotation E text max_words mp w.
Proof.
  unfold MainIO.generate_annotation, Main.generate_annotation.
  destruct (negb (truthy text) || (length (strip text) =? 0)%nat); [reflexivity|].
  unfold T5Tokenizer_from_pretrained, T5ForConditionalGeneration_from_pretrained,
    model_to, tokenizer, generate, decode_output, log_call.
  run_both idtac.
Qed.

Lemma generate_annotation_from_file_agree (file_path : pystr) (max_words : Z)
    (w : world) :
  MainIO.generate_annotation_from_file C E file_path max_words w
    = Main.generate_annotation_from_file E file_path max_words w.
Proof.
  unfold MainIO.generate_annotation_from_file, Main.generate_annotation_from_file.
  unfold bind at 1. rewrite print_printed.
  unfold bind at 1. rewrite print_printed.
  unfold bind at 1. rewrite print_printed.
  unfold bind, path_exists.
  destruct (negb (bool_decide (is_Some (files w !! file_path)) || isdir E file_path));
    [reflexivity|].
  rewrite main_file_agree.
  destruct (Main.extract_text_from_file E file_path w) as [[[text|]|e] w1];
    try reflexivity.
  destruct (truthy text); [|reflexivity].
  rewrite print_printed. apply generate_annotation_agree.
Qed.

Lemma bind_agree {A B : Type} (m1 m2 : M A) (k1 k2 : A -> M B) (w : world) :
  m1 w = m2 w -> (forall a w', k1 a w' = k2 a w') -> bind m1 k1 w = bind m2 k2 w.
Proof.
  intros Hm Hk. unfold bind. rewrite Hm.
  destruct (m2 w) as [[a|e] w']; [apply Hk|reflexivity].
Qed.

Lemma bind_print_agree {B : Type} (s : pystr) (k : unit -> M B) (m : M B)
    (w : world) :
  k tt w = m w -> bind (print C s) k w = m w.
Proof. intros Hk. unfold bind. now rewrite print_printed. Qed.

Lemma try_except_agree {A : Type} (catches : exn -> bool) (b1 b2 : M A)
    (h1 h2 : exn -> M A) (w : world) :
  b1 w = b2 w -> (forall e w', h1 e w' = h2 e w') ->
  try_except catches b1 h1 w = try_except catches b2 h2 w.
Proof.
  intros Hb Hh. unfold try_except. rewrite Hb.
  destruct (b2 w) as [[a|e] w']; [reflexivity|].
  destruct (catches e); [apply Hh|reflexivity].
Qed.

Lemma generate_title_agree (file_path : pystr) (w : world) :
  ExtractIO.generate_title_from_file C E file_path w
    = Extract.generate_title_from_file E file_path w.
Proof.
  unfold ExtractIO.generate_title_from_file, Extract.generate_title_from_file.
  apply bind_agree; [now apply extract_file_agree|].
  intros [text|] w1.
  - destruct (truthy text); cbn [negb].
    + apply try_except_agree; [reflexivity|].
      intros e w'. now apply bind_print_agree.
    + now apply bind_print_agree.
  - now apply bind_print_agree.
Qed.

Lemma process_files_agree (all_files : list pystr) (results : list batch_record)
    (w : world) :
  ExtractIO.process_files C E all_files results w
    = Extract.process_files E all_files results w.
Proof.
  revert results w. induction all_files as [|file_path rest IH]; intros results w;
    [reflexivity|].
  cbn [ExtractIO.process_files Extract.process_files].
  do 2 apply bind_print_agree.
  apply bind_agree; [apply generate_title_agree|].
  intros [title|] w1; [destruct (truthy title)|].
  - apply bind_agree; [reflexivity|]. intros now w2. cbv zeta.
    do 2 apply bind_print_agree. apply IH.
  - apply bind_print_agree. apply IH.
  - apply bind_print_agree. apply IH.
Qed.

Lemma save_results_agree (output_file : option pystr) (results : list batch_record)
    (w : world) :
  ExtractIO.save_results C E output_file results w
    = Extract.save_results E output_file results w.
Proof.
  unfold ExtractIO.save_results, Extract.save_results.
  destruct output_file as [out|]; [|reflexivity].
  destruct results as [|r results]; [reflexivity|].
  destruct (truthy out); [|reflexivity].
  unfold bind, dump_results.
  destruct (write_failure E out (r :: results)) as [[e [written|]]|];
    rewrite ?print_printed; reflexivity.
Qed.

Lemma process_folder_agree (folder_path : pystr) (output_file : option pystr)
    (w : world) :
  ExtractIO.process_folder C E folder_path output_file w
    = Extract.process_folder E folder_path output_file w.
Proof.
  unfold ExtractIO.process_folder, Extract.process_folder.
  apply bind_print_agree.
  apply bind_agree; [reflexivity|]. intros all_files w1.
  apply bind_print_agree.
  apply bind_agree; [apply process_files_agree|]. intros results w2.
  apply bind_agree; [apply save_results_agree|reflexivity].
Qed.
End Agreement.

(** On a console that prints every line the [print] statements make no
    difference: each function with them returns what its definition
    without them returns, and leaves the same world. *)
Theorem printing_changes_nothing (C : console) (E : env) (w : world) :
  prints_every_line C ->
  (forall p, ExtractIO.extract_text_from_pdf C E p w = extract_text_from_pdf E p w) /\
  (forall p, ExtractIO.extract_text_from_docx C E p w
             = Extract.extract_text_from_docx E p w) /\
  (forall p, ExtractIO.extract_text_from_doc C E p w
             = Extract.extract_text_from_doc E p w) /\
  (forall p, ExtractIO.extract_text_from_txt C p w = Extract.extract_text_from_txt p w) /\
  (forall p, ExtractIO.extract_text_from_file C E p w
             = Extract.extract_text_from_file E p w) /\
  (forall p, ExtractIO.generate_title_from_file C E p w
             = Extract.generate_title_from_file E p w) /\
  (forall folder output_file,
     ExtractIO.process_folder C E folder output_file w
       = Extract.process_folder E folder output_file w) /\
  (forall p, MainIO.extract_text_from_pdf C E p w = extract_text_from_pdf E p w) /\
  (forall p, MainIO.extract_text_from_docx C E p w
             = Main.extract_text_from_docx E p w) /\
  (forall p, MainIO.extract_text_from_txt C p w = Main.extract_text_from_txt p w) /\
  (forall p, MainIO.extract_text_from_file C E p w
             = Main.extract_text_from_file E p w) /\
  (forall text max_words mp,
     MainIO.generate_annotation C E text max_words mp w
       = Main.generate_annotation E text max_words mp w) /\
  (forall p max_words,
     MainIO.generate_annotation_from_file C E p max_words w
       = Main.generate_annotation_from_file E p max_words w).
Proof.
  intros Hprint.
  repeat split; intros.
  - now apply extract_pdf_agree.
  - now apply extract_docx_agree.
  - now apply extract_doc_agree.
  - now apply extract_txt_agree.
  - now apply extract_file_agree.
  - now apply generate_title_agree.
  - now apply process_folder_agree.
  - now apply main_pdf_agree.
  - now apply main_docx_agree.
  - now apply main_txt_agree.
  - now apply main_file_agree.
  - now apply generate_annotation_agree.
  - now apply generate_annotation_from_file_agree.
Qed.

Lemma printing_changes_nothing_witness :
  (forall p, ExtractIO.extract_text_from_pdf patient_console docs_env p
               (initial docs_files)
             = extract_text_from_pdf docs_env p (initial docs_files)) /\
  (forall p, ExtractIO.extract_text_from_docx patient_console docs_env p
               (initial docs_files)
             = Extract.extract_text_from_docx docs_env p (initial docs_files)) /\
  (forall p, ExtractIO.extract_text_from_doc patient_console docs_env p
               (initial docs_files)
             = Extract.extract_text_from_doc docs_env p (initial docs_files)) /\
  (forall p, ExtractIO.extract_text_from_txt patient_console p (initial docs_files)
             = Extract.extract_text_from_txt p (initial docs_files)) /\
  (forall p, ExtractIO.extract_text_from_file patient_console docs_env p
               (initial docs_files)
             = Extract.extract_text_from_file docs_env p (initial docs_files)) /\
  (forall p, ExtractIO.generate_title_from_file patient_console docs_env p
               (initial docs_files)
             = Extract.generate_title_from_file docs_env p (initial docs_files)) /\
  (forall folder output_file,
     ExtractIO.process_folder patient_console docs_env folder output_file
       (initial docs_files)
       = Extract.process_folder docs_env folder output_file (initial docs_files)) /\
  (forall p, MainIO.extract_text_from_pdf patient_console docs_env p
               (initial docs_files)
             = extract_text_from_pdf docs_env p (initial docs_files)) /\
  (forall p, MainIO.extract_text_from_docx patient_console docs_env p
               (initial docs_files)
             = Main.extract_text_from_docx docs_env p (initial docs_files)) /\
  (forall p, MainIO.extract_text_from_txt patient_console p (initial docs_files)
             = Main.extract_text_from_txt p (initial docs_files)) /\
  (forall p, MainIO.extract_text_from_file patient_console docs_env p
               (initial docs_files)
             = Main.extract_text_from_file docs_env p (initial docs_files)) /\
  (forall text max_words mp,
     MainIO.generate_annotation patient_console docs_env text max_words mp
       (initial docs_files)
       = Main.generate_annotation docs_env text max_words mp (initial docs_files)) /\
  (forall p max_words,
     MainIO.generate_annotation_from_file patient_console docs_env p max_words
       (initial docs_files)
       = Main.generate_annotation_from_file docs_env p max_words
           (initial docs_files)).
Proof.
  apply (printing_changes_nothing patient_console docs_env (initial docs_files)).
  intros s. reflexivity.
Defined.
